(** * LearnMate chat relay: the request pipeline of the three backends

    The repository has three variants of one relay:
    - [server.js], an Express application whose route [POST /api/chat]
      validates the request, checks the configuration, obtains an IAM token,
      calls the watsonx.ai text generation endpoint and reshapes the answer;
    - two serverless functions named [api/chat.js] (an ES module and a
      CommonJS module) that check the method, validate the message, obtain a
      token, call a deployed [ai_service] and relay its answer as it is.

    The embedding keeps JavaScript values as they are at run time (JSON
    values plus [undefined]), strings as sequences of UTF-16 code units, and
    the effects of a handler (outbound [axios.post] calls, responses written
    to [res], thrown errors) as a state-and-exception monad over a trace of
    events.  An [await] need not come back: an upstream may stay silent, and
    a call that sets no timeout then stays pending, so a computation has a
    third outcome besides returning and throwing.  Console output is not
    part of the model. *)

From Stdlib Require Import List String Ascii ZArith NArith Bool Lia.
From Stdlib Require Import Floats.SpecFloat.
From Stdlib Require Import Numbers.DecimalString.
Import ListNotations.

Set Implicit Arguments.

(** ** JavaScript values and the primitive operations the handlers use *)
Module JS.

(** A string is a sequence of UTF-16 code units. *)
Definition jschar := N.
Definition jsstr := list jschar.

(** The code units of an ASCII literal of the source. *)
Definition lit (s : string) : jsstr := map N_of_ascii (list_ascii_of_string s).
Arguments lit s%_string.

Definition LF : jschar := 10%N.

Fixpoint str_eqb (a b : jsstr) : bool :=
  match a, b with
  | [], [] => true
  | x :: a', y :: b' => N.eqb x y && str_eqb a' b'
  | _, _ => false
  end.

(** [strip_prefix p s] is the rest of [s] after its prefix [p], if [s]
    starts with [p]. *)
Fixpoint strip_prefix (p s : jsstr) : option jsstr :=
  match p with
  | [] => Some s
  | x :: p' =>
      match s with
      | y :: s' => if N.eqb x y then strip_prefix p' s' else None
      | [] => None
      end
  end.

(** Numbers are IEEE 754 binary64 values; [S754_finite s m e] denotes
    [(-1)^s * m * 2^e] and the sign [true] is the negative one. *)
Definition number := spec_float.

Definition num_of_Z (z : Z) : number :=
  match z with
  | Z0 => S754_zero false
  | Zpos p => S754_finite false p 0
  | Zneg p => S754_finite true p 0
  end.

Definition num_of_nat (n : nat) : number := num_of_Z (Z.of_nat n).

(** The double nearest to the literal [0.7]. *)
Definition num_0_7 : number := S754_finite false 6305039478318694 (-53).

(** Run-time values: what [JSON.parse] produces, and [undefined].  In an
    object an earlier binding of a key hides the later ones. *)
#[warnings="-register-all"]
Inductive value : Type :=
| VUndefined
| VNull
| VBool (b : bool)
| VNum (x : number)
| VStr (s : jsstr)
| VArr (elems : list value)
| VObj (props : list (jsstr * value)).

Fixpoint lookup (k : jsstr) (props : list (jsstr * value)) : value :=
  match props with
  | [] => VUndefined
  | (k', v) :: rest => if str_eqb k k' then v else lookup k rest
  end.

Fixpoint has_key (k : jsstr) (props : list (jsstr * value)) : bool :=
  match props with
  | [] => false
  | (k', _) :: rest => str_eqb k k' || has_key k rest
  end.

(** ToBoolean: what [!x], [x && y] and [x || y] test. *)
Definition truthy (v : value) : bool :=
  match v with
  | VUndefined | VNull => false
  | VBool b => b
  | VNum (S754_zero _) | VNum S754_nan => false
  | VNum _ => true
  | VStr [] => false
  | VStr _ => true
  | VArr _ | VObj _ => true
  end.

(** [x || y] *)
Definition or_else (x y : value) : value := if truthy x then x else y.

(** *** Thrown errors

    One record stands for every error object a handler can catch: an axios
    error carries [response] when the server answered with a status outside
    2xx and [request] when a request was sent; a [TypeError] raised by the
    engine has neither. *)
Record http_response : Type := { status : Z; data : value }.

Record error : Type := {
  response : option http_response;
  request : bool;
  message : jsstr
}.

Inductive completion (A : Type) : Type :=
| Normal (a : A)
| Throw (e : error).
Arguments Normal {A} a.
Arguments Throw {A} e.

Definition TypeError (msg : jsstr) : error :=
  {| response := None; request := false; message := msg |}.

(** The text V8 gives to a property read on [undefined] or [null]. *)
Definition cannot_read (of_what name : jsstr) : error :=
  TypeError (lit "Cannot read properties of " ++ of_what ++
             lit " (reading '" ++ name ++ lit "')").

(** [v.name] for a name that no built-in prototype defines ([message],
    [results], [generated_text], [access_token]). *)
Definition get_prop (v : value) (name : jsstr) : completion value :=
  match v with
  | VUndefined => Throw (cannot_read (lit "undefined") name)
  | VNull => Throw (cannot_read (lit "null") name)
  | VObj props => Normal (lookup name props)
  | VBool _ | VNum _ | VStr _ | VArr _ => Normal VUndefined
  end.

(** [v.length] *)
Definition get_length (v : value) : completion value :=
  match v with
  | VUndefined => Throw (cannot_read (lit "undefined") (lit "length"))
  | VNull => Throw (cannot_read (lit "null") (lit "length"))
  | VStr s => Normal (VNum (num_of_nat (List.length s)))
  | VArr elems => Normal (VNum (num_of_nat (List.length elems)))
  | VObj props => Normal (lookup (lit "length") props)
  | VBool _ | VNum _ => Normal VUndefined
  end.

Definition index_name (i : nat) : jsstr :=
  map N_of_ascii (list_ascii_of_string (NilEmpty.string_of_uint (Nat.to_uint i))).

(** [v[i]] for an index [i] written as a number in the source. *)
Definition get_index (v : value) (i : nat) : completion value :=
  match v with
  | VUndefined => Throw (cannot_read (lit "undefined") (index_name i))
  | VNull => Throw (cannot_read (lit "null") (index_name i))
  | VStr s => Normal match nth_error s i with
                     | Some c => VStr [c]
                     | None => VUndefined
                     end
  | VArr elems => Normal (nth i elems VUndefined)
  | VObj props => Normal (lookup (index_name i) props)
  | VBool _ | VNum _ => Normal VUndefined
  end.

(** *** White space, [trim] and the prompt-stripping regular expression *)

Definition is_line_terminator (c : jschar) : bool :=
  (c =? 10)%N || (c =? 13)%N || (c =? 8232)%N || (c =? 8233)%N.

Definition is_white_space (c : jschar) : bool :=
  (c =? 9)%N || (c =? 11)%N || (c =? 12)%N || (c =? 32)%N || (c =? 160)%N ||
  (c =? 5760)%N || ((8192 <=? c)%N && (c <=? 8202)%N) || (c =? 8239)%N ||
  (c =? 8287)%N || (c =? 12288)%N || (c =? 65279)%N.

(** The class [\s] of a regular expression, also what [trim] removes. *)
Definition is_space (c : jschar) : bool := is_white_space c || is_line_terminator c.

Fixpoint trim_start (s : jsstr) : jsstr :=
  match s with
  | c :: s' => if is_space c then trim_start s' else s
  | [] => []
  end.

Definition trim_end (s : jsstr) : jsstr := rev (trim_start (rev s)).

(** [s.trim()] *)
Definition trim (s : jsstr) : jsstr := trim_end (trim_start s).

(** The lazy [.*?] followed by a literal: the literal is tried at the
    current position first, and only when it is not there one more code unit
    is consumed, which [.] refuses when it is a line terminator. *)
Fixpoint lazy_dots_then (marker s : jsstr) : option jsstr :=
  match strip_prefix marker s with
  | Some rest => Some rest
  | None =>
      match s with
      | c :: s' => if is_line_terminator c then None else lazy_dots_then marker s'
      | [] => None
      end
  end.

(** [s.replace(/^Human:.*?Assistant:\s*/, '')]: the expression is anchored
    and not global, so it matches at index 0 or not at all; the final [\s*]
    is greedy and nothing follows it. *)
Definition replace_prompt (s : jsstr) : jsstr :=
  match strip_prefix (lit "Human:") s with
  | Some r =>
      match lazy_dots_then (lit "Assistant:") r with
      | Some r' => trim_start r'
      | None => s
      end
  | None => s
  end.

(** *** Conversion to a number, as far as a comparison with [0] needs it

    [results.length > 0] converts its left operand with ToPrimitive and
    ToNumber.  Only the sign of the result matters, so the model keeps the
    sign class of the number, which is exact: it includes the rounding of a
    tiny decimal literal to zero. *)
Inductive sign_class : Type := IsNaN | IsZero | IsPos | IsNeg.

Definition signed (neg : bool) : sign_class := if neg then IsNeg else IsPos.

Definition class_of_number (x : number) : sign_class :=
  match x with
  | S754_nan => IsNaN
  | S754_zero _ => IsZero
  | S754_infinity s => signed s
  | S754_finite s _ _ => signed s
  end.

Definition in_range (lo hi c : jschar) : bool := (lo <=? c)%N && (c <=? hi)%N.
Arguments in_range (lo hi c)%_N.
Definition is_digit (c : jschar) : bool := in_range 48 57 c.
Definition is_hex_digit (c : jschar) : bool :=
  is_digit c || in_range 97 102 c || in_range 65 70 c.
Definition is_octal_digit (c : jschar) : bool := in_range 48 55 c.
Definition is_binary_digit (c : jschar) : bool := in_range 48 49 c.

(** The leading decimal digits of [s]: their value on top of [acc], how
    many there are on top of [count], and what follows them. *)
Fixpoint take_digits (s : jsstr) (acc : N) (count : nat) : N * nat * jsstr :=
  match s with
  | c :: s' =>
      if is_digit c then take_digits s' (acc * 10 + (c - 48))%N (S count)
      else (acc, count, s)
  | [] => (acc, count, [])
  end.

(** ExponentPart, which must reach the end of the literal; no exponent
    counts as exponent 0. *)
Definition exponent (s : jsstr) : option Z :=
  match s with
  | [] => Some 0%Z
  | c :: r =>
      if (c =? 101)%N || (c =? 69)%N then
        let '(neg, r') :=
          match r with
          | d :: r'' =>
              if (d =? 43)%N then (false, r'')
              else if (d =? 45)%N then (true, r'') else (false, r)
          | [] => (false, r)
          end in
        match take_digits r' 0 0 with
        | (_, O, _) => None
        | (e, S _, []) => Some (if neg then (- Z.of_N e)%Z else Z.of_N e)
        | (_, S _, _ :: _) => None
        end
      else None
  end.

(** The sign class of the double nearest to [m * 10^k]: a positive value
    rounds to zero exactly when it is at most [2^-1075], half of the least
    positive double (the tie goes to the even significand, zero). *)
Definition rounded (neg : bool) (m : N) (k : Z) : sign_class :=
  if (m =? 0)%N then IsZero
  else if (0 <=? k)%Z then signed neg
  else if (10 ^ (- k) <? Z.of_N m * 2 ^ 1075)%Z then signed neg
  else IsZero.

(** StrUnsignedDecimalLiteral, after the optional sign. *)
Definition decimal_class (neg : bool) (s : jsstr) : sign_class :=
  if str_eqb s (lit "Infinity") then signed neg
  else
    let '(ip, ni, r1) := take_digits s 0 0 in
    let '(m, nf, r2) :=
      match strip_prefix (lit ".") r1 with
      | Some r => take_digits r ip 0
      | None => (ip, O, r1)
      end in
    match ni, nf with
    | O, O => IsNaN
    | _, _ =>
        match exponent r2 with
        | Some e => rounded neg m (e - Z.of_nat nf)
        | None => IsNaN
        end
    end.

(** The digits of a binary, octal or hexadecimal integer literal. *)
Definition radix_class (is_d : jschar -> bool) (s : jsstr) : sign_class :=
  match s with
  | [] => IsNaN
  | _ :: _ =>
      if forallb is_d s
      then (if forallb (N.eqb 48%N) s then IsZero else IsPos)
      else IsNaN
  end.

Fixpoint strip_any (ps : list jsstr) (s : jsstr) : option jsstr :=
  match ps with
  | [] => None
  | p :: ps' =>
      match strip_prefix p s with
      | Some r => Some r
      | None => strip_any ps' s
      end
  end.

(** StringToNumber *)
Definition class_of_string (s : jsstr) : sign_class :=
  let t := trim s in
  match t with
  | [] => IsZero
  | _ :: _ =>
      match strip_any [lit "0x"; lit "0X"] t with
      | Some r => radix_class is_hex_digit r
      | None =>
      match strip_any [lit "0o"; lit "0O"] t with
      | Some r => radix_class is_octal_digit r
      | None =>
      match strip_any [lit "0b"; lit "0B"] t with
      | Some r => radix_class is_binary_digit r
      | None =>
      match strip_prefix (lit "+") t with
      | Some r => decimal_class false r
      | None =>
      match strip_prefix (lit "-") t with
      | Some r => decimal_class true r
      | None => decimal_class false t
      end end end end end
  end.

(** ToPrimitive and ToString throw on an object whose own [toString] key
    hides the inherited method (a JSON value is never callable), and on an
    array one of whose elements does; [join] skips [null] and [undefined]. *)
Fixpoint conversion_throws (v : value) : bool :=
  match v with
  | VObj props => has_key (lit "toString") props
  | VArr elems => existsb conversion_throws elems
  | VUndefined | VNull | VBool _ | VNum _ | VStr _ => false
  end.

(** The sign class of ToNumber(ToPrimitive(v)) when the conversion does not
    throw.  An array converts through [join(',')]: the empty array gives the
    empty string, two or more elements give a string with a comma, which is
    no numeric literal, and one element gives the string of that element;
    the string of a number converts back to the same number, up to the sign
    of zero. *)
Fixpoint number_class (v : value) : sign_class :=
  match v with
  | VUndefined => IsNaN
  | VNull => IsZero
  | VBool b => if b then IsPos else IsZero
  | VNum x => class_of_number x
  | VStr s => class_of_string s
  | VObj _ => IsNaN
  | VArr [] => IsZero
  | VArr [x] =>
      match x with
      | VUndefined | VNull => IsZero
      | VBool _ | VObj _ => IsNaN
      | VNum _ | VStr _ | VArr _ => number_class x
      end
  | VArr (_ :: _ :: _) => IsNaN
  end.

(** [v > 0] *)
Definition gt_zero (v : value) : completion bool :=
  if conversion_throws v
  then Throw (TypeError (lit "Cannot convert object to primitive value"))
  else Normal match number_class v with
              | IsPos => true
              | IsNaN | IsZero | IsNeg => false
              end.

End JS.

(** ** Effects: outbound calls, responses and thrown errors *)
Module Effects.
Import JS.

(** A template literal: its text chunks and its substitutions, in order. The
    substitutions stay as values; their conversion to a string is applied
    when the literal is evaluated, see [template_literal]. *)
Inductive tpart : Type :=
| TLit (s : jsstr)
| TSub (v : value).

Definition template := list tpart.

(** What is handed to [axios.post] as request body: an object literal of the
    source, whose string leaves may be template literals. *)
#[warnings="-register-all"]
Inductive payload : Type :=
| PVal (v : value)
| PStr (t : template)
| PArr (items : list payload)
| PObj (fields : list (jsstr * payload)).

Record axios_config : Type := {
  headers : list (jsstr * template);
  timeout : option Z
}.

Record outbound : Type := {
  url : jsstr;
  body : payload;
  config : axios_config
}.

(** What the outside world does with an outbound request: it answers with a
    status and a body; the request fails on the way with an error and without
    an answer (unreachable host, refused or reset connection); the request
    cannot be issued at all; or the upstream takes the request and stays
    silent, with the connection open. *)
Inductive net_outcome : Type :=
| Responded (code : Z) (d : value)
| NoResponse (msg : jsstr)
| NotSent (msg : jsstr)
| Silent.

Definition network := outbound -> net_outcome.

(** The observable events of one handler invocation, oldest first:
    [Post r] records that [axios.post] was called with the request [r],
    whatever became of it, and [Respond code json] that the handler sent
    [json] with status [code]. *)
Inductive event : Type :=
| Post (r : outbound)
| Respond (code : Z) (json : value).

Definition trace := list event.

(** An asynchronous computation settles, normally or by throwing, or it
    stays pending for ever: an [await] on a promise that is never resolved
    nor rejected does not come back. *)
Inductive settled (A : Type) : Type :=
| Settled (c : completion A)
| Pending.

Arguments Pending {A}.

(** A computation reads the network, extends the trace and settles or stays
    pending. *)
Definition M (A : Type) : Type := network -> trace -> settled A * trace.

Definition ret {A} (a : A) : M A := fun _ t => (Settled (Normal a), t).

(** What follows an [await] runs only once the awaited computation has
    completed normally. *)
Definition bind {A B} (m : M A) (k : A -> M B) : M B :=
  fun net t =>
    match m net t with
    | (Settled (Normal a), t') => k a net t'
    | (Settled (Throw e), t') => (Settled (Throw e), t')
    | (Pending, t') => (Pending, t')
    end.

Definition throw {A} (e : error) : M A := fun _ t => (Settled (Throw e), t).

Definition lift {A} (c : completion A) : M A := fun _ t => (Settled c, t).

(** [try { m } catch (error) { h error }]: the handler runs on a throw; a
    pending [m] reaches neither the end of the block nor the handler. *)
Definition try_catch {A} (m : M A) (h : error -> M A) : M A :=
  fun net t =>
    match m net t with
    | (Settled (Normal a), t') => (Settled (Normal a), t')
    | (Settled (Throw e), t') => h e net t'
    | (Pending, t') => (Pending, t')
    end.

Definition emit (e : event) : M unit := fun _ t => (Settled (Normal tt), t ++ [e]).

(** Sequencing of plain completions, for code without effects. *)
Definition and_then {A B} (c : completion A) (k : A -> completion B) : completion B :=
  match c with
  | Normal a => k a
  | Throw e => Throw e
  end.

Declare Scope js_scope.
Delimit Scope js_scope with js.
Notation "x <- m ;; k" := (bind m (fun x => k))
  (at level 61, m at next level, right associativity) : js_scope.
Notation "'let*' x := c 'in' k" := (and_then c (fun x => k))
  (at level 61, x name, c at next level, right associativity) : js_scope.

(** Evaluation of a template literal converts every substitution to a
    string, left to right, and throws where that conversion throws. *)
Definition substitution_throws (p : tpart) : bool :=
  match p with
  | TLit _ => false
  | TSub v => conversion_throws v
  end.

Definition template_literal (t : template) : completion template :=
  if existsb substitution_throws t
  then Throw (TypeError (lit "Cannot convert object to primitive value"))
  else Normal t.

(** The string of a value whose conversion needs no number formatting, and
    the text of a template literal whose substitutions are of that kind. *)
Definition to_string (v : value) : option jsstr :=
  match v with
  | VUndefined => Some (lit "undefined")
  | VNull => Some (lit "null")
  | VBool b => Some (if b then lit "true" else lit "false")
  | VStr s => Some s
  | VNum _ | VArr _ | VObj _ => None
  end.

Fixpoint render (t : template) : option jsstr :=
  match t with
  | [] => Some []
  | p :: t' =>
      match (match p with TLit s => Some s | TSub v => to_string v end), render t' with
      | Some s, Some r => Some (s ++ r)
      | _, _ => None
      end
  end.

Definition decimal (z : Z) : jsstr :=
  map N_of_ascii (list_ascii_of_string (NilEmpty.string_of_int (Z.to_int z))).

(** axios rejects a response whose status is outside 2xx. *)
Definition validateStatus (code : Z) : bool := (200 <=? code)%Z && (code <? 300)%Z.

(** [await axios.post(url, body, config)]. Against a silent upstream the
    [timeout] of the configuration decides: when one is set axios aborts the
    request after that many milliseconds and rejects, with [error.request]
    set and no response; without one (the default, 0) the promise is never
    settled. *)
Definition axios_post (u : jsstr) (b : payload) (c : axios_config) : M http_response :=
  fun net t =>
    let r := {| url := u; body := b; config := c |} in
    (match net r with
     | Responded code d =>
         if validateStatus code
         then Settled (Normal {| status := code; data := d |})
         else Settled (Throw {| response := Some {| status := code; data := d |};
                                request := true;
                                message := lit "Request failed with status code "
                                             ++ decimal code |})
     | NoResponse msg =>
         Settled (Throw {| response := None; request := true; message := msg |})
     | NotSent msg =>
         Settled (Throw {| response := None; request := false; message := msg |})
     | Silent =>
         match timeout c with
         | Some ms =>
             Settled (Throw {| response := None; request := true;
                               message := lit "timeout of " ++ decimal ms
                                            ++ lit "ms exceeded" |})
         | None => Pending
         end
     end, t ++ [Post r]).

(** [res.status(code).json(body)] *)
Definition res_status_json (code : Z) (json : value) : M unit := emit (Respond code json).

(** [res.json(body)], with the default status of a response. *)
Definition res_json (json : value) : M unit := emit (Respond 200 json).

(** [process.env]: a variable is a string or is not set. *)
Record environment : Type := {
  env_IBM_API_KEY : option jsstr;
  env_PROJECT_ID : option jsstr
}.

Definition env_value (o : option jsstr) : value :=
  match o with
  | Some s => VStr s
  | None => VUndefined
  end.

(** The inbound request as a handler reads it. *)
Record http_request : Type := {
  method : jsstr;
  req_body : value
}.

(** One invocation of a handler, from the empty trace. *)
Definition run (m : M unit) (net : network) : trace := snd (m net []).

Definition posts (t : trace) : list outbound :=
  flat_map (fun e => match e with Post r => [r] | Respond _ _ => [] end) t.

Definition responses (t : trace) : list (Z * value) :=
  flat_map (fun e => match e with Post _ => [] | Respond c j => [(c, j)] end) t.

End Effects.

(** ** The serverless functions [api/chat.js] *)
Module Serverless.
Import JS Effects.
Local Open Scope js_scope.

Definition IAM_URL : jsstr := lit "https://iam.cloud.ibm.com/identity/token".

Definition method_not_allowed : value :=
  VObj [(lit "error", VStr (lit "Method Not Allowed"))].

Definition empty_message : value :=
  VObj [(lit "error", VStr (lit "Message cannot be empty."))].

Definition internal_error : value :=
  VObj [(lit "error", VStr (lit "An internal server error occurred."))].

Definition iam_body (IBM_API_KEY : value) : template :=
  [TLit (lit "grant_type=urn:ibm:params:oauth:grant-type:apikey&apikey=");
   TSub IBM_API_KEY].

Definition iam_config : axios_config :=
  {| headers := [(lit "Content-Type",
                  [TLit (lit "application/x-www-form-urlencoded")])];
     timeout := None |}.

(** [{ project_id: PROJECT_ID, messages: [{ content: userMessage, role: "user" }] }] *)
Definition chat_payload (PROJECT_ID userMessage : value) : payload :=
  PObj [(lit "project_id", PVal PROJECT_ID);
        (lit "messages",
         PArr [PObj [(lit "content", PVal userMessage);
                     (lit "role", PVal (VStr (lit "user")))]])].

Definition bearer (token : value) : template := [TLit (lit "Bearer "); TSub token].

(** The two outbound requests, as [handler] issues them. *)
Definition iam_request (env : environment) : outbound :=
  {| url := IAM_URL;
     body := PStr (iam_body (env_value (env_IBM_API_KEY env)));
     config := iam_config |}.

Definition scoring_request (SCORING_URL : jsstr) (env : environment)
    (userMessage token : value) : outbound :=
  {| url := SCORING_URL;
     body := chat_payload (env_value (env_PROJECT_ID env)) userMessage;
     config := {| headers := [(lit "Authorization", bearer token);
                              (lit "Content-Type", [TLit (lit "application/json")])];
                  timeout := None |} |}.

(** The two files differ in the deployment that [SCORING_URL] names and in
    nothing else. *)
Definition handler_with (SCORING_URL : jsstr) (env : environment)
    (req : http_request) : M unit :=
  if negb (str_eqb (method req) (lit "POST")) then
    res_status_json 405 method_not_allowed
  else
    let IBM_API_KEY := env_value (env_IBM_API_KEY env) in
    let PROJECT_ID := env_value (env_PROJECT_ID env) in
    try_catch
      (userMessage <- lift (get_prop (req_body req) (lit "message")) ;;
       if negb (truthy userMessage) then
         res_status_json 400 empty_message
       else
         form <- lift (template_literal (iam_body IBM_API_KEY)) ;;
         tokenResponse <- axios_post IAM_URL (PStr form) iam_config ;;
         token <- lift (get_prop (data tokenResponse) (lit "access_token")) ;;
         let payload := chat_payload PROJECT_ID userMessage in
         authorization <- lift (template_literal (bearer token)) ;;
         let headers :=
           [(lit "Authorization", authorization);
            (lit "Content-Type", [TLit (lit "application/json")])] in
         aiResponse <- axios_post SCORING_URL payload
                         {| headers := headers; timeout := None |} ;;
         res_status_json 200 (data aiResponse))
      (fun error => res_status_json 500 internal_error).

End Serverless.

(** [src/api/chat.js], the ES module. *)
Module ApiChat.
Import JS Effects.

Definition SCORING_URL : jsstr :=
  lit "https://us-south.ml.cloud.ibm.com/ml/v4/deployments/6aa5c265-8965-4028-b9bc-64027944f790/ai_service?version=2021-05-01".

Definition handler : environment -> http_request -> M unit :=
  Serverless.handler_with SCORING_URL.

End ApiChat.

(** The CommonJS [api/chat.js], exported through [module.exports]. *)
Module ApiChatCjs.
Import JS Effects.

Definition SCORING_URL : jsstr :=
  lit "https://us-south.ml.cloud.ibm.com/ml/v4/deployments/d524d8ac-2f27-4885-884c-c2c146b88ef1/ai_service?version=2021-05-01".

Definition handler : environment -> http_request -> M unit :=
  Serverless.handler_with SCORING_URL.

End ApiChatCjs.

(** ** [server.js]: the Express route [POST /api/chat] *)
Module Server.
Import JS Effects.
Local Open Scope js_scope.

Definition IAM_URL : jsstr := lit "https://iam.cloud.ibm.com/identity/token".

Definition WATSONX_URL : jsstr :=
  lit "https://us-south.ml.cloud.ibm.com/ml/v1/text/generation?version=2023-05-29".

Definition iam_body (IBM_API_KEY : value) : template :=
  [TLit (lit "grant_type=urn:ibm:params:oauth:grant-type:apikey&apikey=");
   TSub IBM_API_KEY].

Definition iam_config : axios_config :=
  {| headers := [(lit "Content-Type",
                  [TLit (lit "application/x-www-form-urlencoded")])];
     timeout := Some 15000%Z |}.

(** [getIAMToken]: its [catch] logs and throws the error again. *)
Definition getIAMToken (env : environment) : M value :=
  try_catch
    (form <- lift (template_literal (iam_body (env_value (env_IBM_API_KEY env)))) ;;
     response <- axios_post IAM_URL (PStr form) iam_config ;;
     lift (get_prop (data response) (lit "access_token")))
    (fun error => throw error).

Definition empty_message : value :=
  VObj [(lit "error", VStr (lit "Message cannot be empty."))].

Definition api_key_missing : value :=
  VObj [(lit "error", VStr (lit "Server configuration error: API key missing"))].

Definition project_id_missing : value :=
  VObj [(lit "error",
         VStr (lit "Server configuration error: Project ID missing. Please add PROJECT_ID to your .env file"))].

Definition preamble : jsstr :=
  [LF; LF] ++
  lit "Assistant: I'm LearnMate, your AI learning coach. I'm here to help you with educational planning, finding resources, and answering questions about learning and development.".

Definition input_template (userMessage : value) : template :=
  [TLit (lit "Human: "); TSub userMessage; TLit preamble].

Definition generation_payload (input : template) (PROJECT_ID : value) : payload :=
  PObj [(lit "input", PStr input);
        (lit "parameters",
         PObj [(lit "decoding_method", PVal (VStr (lit "greedy")));
               (lit "max_new_tokens", PVal (VNum (num_of_Z 500)));
               (lit "temperature", PVal (VNum num_0_7));
               (lit "stop_sequences",
                PVal (VArr [VStr (lit "Human:");
                            VStr ([LF; LF] ++ lit "Human:")]))]);
        (lit "model_id", PVal (VStr (lit "ibm/granite-3-3-8b-instruct")));
        (lit "project_id", PVal PROJECT_ID)].

Definition bearer (token : value) : template := [TLit (lit "Bearer "); TSub token].

Definition generation_config (authorization : template) : axios_config :=
  {| headers := [(lit "Authorization", authorization);
                 (lit "Content-Type", [TLit (lit "application/json")]);
                 (lit "Accept", [TLit (lit "application/json")])];
     timeout := Some 45000%Z |}.

(** [v.replace(/^Human:.*?Assistant:\s*/, '').trim()]: only a string has
    the method. *)
Definition replace_and_trim (v : value) : completion jsstr :=
  match v with
  | VStr s => Normal (trim (replace_prompt s))
  | VUndefined => Throw (cannot_read (lit "undefined") (lit "replace"))
  | VNull => Throw (cannot_read (lit "null") (lit "replace"))
  | VBool _ | VNum _ | VArr _ | VObj _ =>
      Throw (TypeError (lit "responseText.replace is not a function"))
  end.

(** The value of [responseText] after the [if] that reads
    [aiResponse.data.results]. *)
Definition responseText (aiData : value) : completion jsstr :=
  let* results := get_prop aiData (lit "results") in
  let* nonempty :=
    (if truthy results
     then (let* len := get_length results in gt_zero len)
     else Normal false) in
  if nonempty then
    let* first := get_index results 0 in
    let* generated_text := get_prop first (lit "generated_text") in
    replace_and_trim generated_text
  else Normal [].

Definition fallback : jsstr :=
  lit "I'm sorry, I couldn't generate a response. Please try again.".

(** [{ choices: [{ index: 0, message: { content: ..., role: "assistant" } }] }] *)
Definition envelope (content : value) : value :=
  VObj [(lit "choices",
         VArr [VObj [(lit "index", VNum (num_of_Z 0));
                     (lit "message",
                      VObj [(lit "content", content);
                            (lit "role", VStr (lit "assistant"))])]])].

(** [responseText || "I'm sorry, ..."] *)
Definition content (text : jsstr) : value := or_else (VStr text) (VStr fallback).

Definition formattedResponse (text : jsstr) : value := envelope (content text).

(** The [content] field that the route builds from an upstream body. *)
Definition extracted_content (aiData : value) : completion value :=
  let* text := responseText aiData in Normal (content text).

(** The two outbound requests, as the route issues them. *)
Definition iam_request (env : environment) : outbound :=
  {| url := IAM_URL;
     body := PStr (iam_body (env_value (env_IBM_API_KEY env)));
     config := iam_config |}.

Definition generation_request (env : environment) (userMessage token : value)
    : outbound :=
  {| url := WATSONX_URL;
     body := generation_payload (input_template userMessage)
               (env_value (env_PROJECT_ID env));
     config := generation_config (bearer token) |}.

Definition upstream_failure (r : http_response) : value :=
  VObj [(lit "error", VStr (lit "Failed to get response from AI"));
        (lit "details", data r);
        (lit "status", VNum (num_of_Z (status r)))].

Definition connection_timeout : value :=
  VObj [(lit "error",
         VStr (lit "Connection timeout - unable to reach IBM Watsonx.ai service"));
        (lit "suggestion",
         VStr (lit "Please check your internet connection and try again"))].

Definition setup_failure (msg : jsstr) : value :=
  VObj [(lit "error", VStr (lit "Failed to set up request to AI service"));
        (lit "details", VStr msg)].

(** The [catch] of the route. *)
Definition on_error (error : JS.error) : M unit :=
  match response error with
  | Some r => res_status_json (status r) (upstream_failure r)
  | None =>
      if request error
      then res_status_json 500 connection_timeout
      else res_status_json 500 (setup_failure (message error))
  end.

(** [app.post('/api/chat', async (req, res) => ...)] *)
Definition api_chat (env : environment) (req : http_request) : M unit :=
  let IBM_API_KEY := env_value (env_IBM_API_KEY env) in
  let PROJECT_ID := env_value (env_PROJECT_ID env) in
  try_catch
    (userMessage <- lift (get_prop (req_body req) (lit "message")) ;;
     if negb (truthy userMessage) then
       res_status_json 400 empty_message
     else if negb (truthy IBM_API_KEY) then
       res_status_json 500 api_key_missing
     else if negb (truthy PROJECT_ID) then
       res_status_json 500 project_id_missing
     else
       token <- getIAMToken env ;;
       input <- lift (template_literal (input_template userMessage)) ;;
       let payload := generation_payload input PROJECT_ID in
       authorization <- lift (template_literal (bearer token)) ;;
       aiResponse <- axios_post WATSONX_URL payload
                       (generation_config authorization) ;;
       text <- lift (responseText (data aiResponse)) ;;
       res_json (formattedResponse text))
    on_error.

End Server.

(** ** Vocabulary of the specification *)
Module Spec.
Import JS Effects.

(** The canonical envelope,
    [{ choices: [{ index: 0, message: { content: <string>, role: "assistant" } }] }]. *)
Definition canonical (json : value) : Prop :=
  exists s : jsstr,
    json = VObj [(lit "choices",
                  VArr [VObj [(lit "index", VNum (num_of_Z 0));
                              (lit "message",
                               VObj [(lit "content", VStr s);
                                     (lit "role", VStr (lit "assistant"))])]])].

(** A message that is not empty and consists of white space only. *)
Definition whitespace_only (s : jsstr) : Prop :=
  s <> [] /\ forallb is_space s = true.

(** An outbound call that did not end with a 2xx response. *)
Definition failed (o : net_outcome) : Prop :=
  match o with
  | Responded code _ => validateStatus code = false
  | NoResponse _ | NotSent _ | Silent => True
  end.

(** The upstream answers request [r] with a 2xx response that carries the
    token, respectively the inference result. *)
Definition gives_token (net : network) (r : outbound) (token : value) : Prop :=
  exists code d,
    net r = Responded code d /\ validateStatus code = true
    /\ get_prop d (lit "access_token") = Normal token.

Definition gives_result (net : network) (r : outbound) (aiData : value) : Prop :=
  exists code, net r = Responded code aiData /\ validateStatus code = true.

(** Upstream bodies of the shapes the Express route is written for: no
    usable [results], an empty [results] array, or a first result whose
    [generated_text] is a string. *)
Definition readable (aiData : value) : Prop :=
  (exists r, get_prop aiData (lit "results") = Normal r /\ truthy r = false)
  \/ get_prop aiData (lit "results") = Normal (VArr [])
  \/ (exists first rest s,
        get_prop aiData (lit "results") = Normal (VArr (first :: rest))
        /\ get_prop first (lit "generated_text") = Normal (VStr s)).

(** [contains marker s]: [marker] occurs somewhere in [s]. *)
Fixpoint contains (marker s : jsstr) : bool :=
  match strip_prefix marker s with
  | Some _ => true
  | None =>
      match s with
      | _ :: s' => contains marker s'
      | [] => false
      end
  end.

(** The fallback text as the specification quotes it. *)
Definition quoted_fallback : jsstr :=
  lit "I couldn't generate a response. Please try again.".

End Spec.

(** ** Concrete requests, configurations and upstream behaviours *)
Module Scenario.
Import JS Effects.

Definition configured : environment :=
  {| env_IBM_API_KEY := Some (lit "key"); env_PROJECT_ID := Some (lit "project") |}.

Definition no_api_key : environment :=
  {| env_IBM_API_KEY := None; env_PROJECT_ID := Some (lit "project") |}.

Definition post (msg : value) : http_request :=
  {| method := lit "POST"; req_body := VObj [(lit "message", msg)] |}.

Definition get : http_request :=
  {| method := lit "GET"; req_body := VUndefined |}.

Definition hi : value := VStr (lit "hi").

Definition token_data : value := VObj [(lit "access_token", VStr (lit "T"))].

(** An upstream that gives one answer at the identity endpoint and one
    answer everywhere else. *)
Definition answering (iam inference : net_outcome) : network :=
  fun r =>
    if str_eqb (url r) (lit "https://iam.cloud.ibm.com/identity/token")
    then iam else inference.

Definition generated (text : jsstr) : value :=
  VObj [(lit "results", VArr [VObj [(lit "generated_text", VStr text)]])].

Definition healthy (aiData : value) : network :=
  answering (Responded 200 token_data) (Responded 200 aiData).

(** The same token and the same result behind other statuses and extra
    fields. *)
Definition healthy_again (aiData : value) : network :=
  answering
    (Responded 201 (VObj [(lit "expires_in", VNum (num_of_Z 3600));
                          (lit "access_token", VStr (lit "T"))]))
    (Responded 202 aiData).

Definition unauthorized : value :=
  VObj [(lit "errorCode", VStr (lit "BXNIM0415E"))].

Definition overloaded : value :=
  VObj [(lit "error", VStr (lit "overloaded"))].

(** [Human: X\n\nAssistant: Y] *)
Definition echoed : jsstr := lit "Human: X" ++ [LF; LF] ++ lit "Assistant: Y".

End Scenario.

(** ** [server.js]: the other routes *)
Module Routes.
Import JS Effects.
Local Open Scope js_scope.

Definition nullish (v : value) : bool :=
  match v with
  | VUndefined | VNull => true
  | VBool _ | VNum _ | VStr _ | VArr _ | VObj _ => false
  end.

(** [v?.[i]] and [v?.name]: [undefined] for a nullish [v]. *)
Definition opt_index (v : value) (i : nat) : completion value :=
  if nullish v then Normal VUndefined else get_index v i.

Definition opt_prop (v : value) (name : jsstr) : completion value :=
  if nullish v then Normal VUndefined else get_prop v name.

Definition alt_input (userMessage : value) : template :=
  [TLit (lit "You are LearnMate, an AI learning coach. Help the user with their learning question: ");
   TSub userMessage].

Definition alt_payload (model_id : jsstr) (input : template) (PROJECT_ID : value)
    : payload :=
  PObj [(lit "input", PStr input);
        (lit "parameters",
         PObj [(lit "decoding_method", PVal (VStr (lit "greedy")));
               (lit "max_new_tokens", PVal (VNum (num_of_Z 400)));
               (lit "temperature", PVal (VNum num_0_7))]);
        (lit "model_id", PVal (VStr model_id));
        (lit "project_id", PVal PROJECT_ID)].

Definition alt_config (authorization : template) : axios_config :=
  {| headers := [(lit "Authorization", authorization);
                 (lit "Content-Type", [TLit (lit "application/json")])];
     timeout := Some 30000%Z |}.

Definition alt_request (model_id : jsstr) (env : environment)
    (userMessage token : value) : outbound :=
  {| url := Server.WATSONX_URL;
     body := alt_payload model_id (alt_input userMessage)
               (env_value (env_PROJECT_ID env));
     config := alt_config (Server.bearer token) |}.

Definition alt_fallback : jsstr := lit "I'm having trouble generating a response.".

(** [aiResponse.data.results?.[0]?.generated_text || "I'm having trouble ..."] *)
Definition alt_responseText (aiData : value) : completion value :=
  let* results := get_prop aiData (lit "results") in
  let* first := opt_index results 0 in
  let* generated_text := opt_prop first (lit "generated_text") in
  Normal (or_else generated_text (VStr alt_fallback)).

(** [error.response?.data] *)
Definition response_data (error : JS.error) : value :=
  match response error with
  | Some r => data r
  | None => VUndefined
  end.

(** [{ error: ..., details: error.response?.data || error.message }] *)
Definition alt_failure (text : jsstr) (error : JS.error) : value :=
  VObj [(lit "error", VStr text);
        (lit "details", or_else (response_data error) (VStr (message error)))].

(** The routes [/api/chat-v2] and [/api/chat-v3] differ in the model they
    name and in the text of their error and in nothing else. *)
Definition alternative (model_id failure_text : jsstr) (env : environment)
    (req : http_request) : M unit :=
  let PROJECT_ID := env_value (env_PROJECT_ID env) in
  try_catch
    (userMessage <- lift (get_prop (req_body req) (lit "message")) ;;
     token <- Server.getIAMToken env ;;
     input <- lift (template_literal (alt_input userMessage)) ;;
     let payload := alt_payload model_id input PROJECT_ID in
     authorization <- lift (template_literal (Server.bearer token)) ;;
     aiResponse <- axios_post Server.WATSONX_URL payload (alt_config authorization) ;;
     text <- lift (alt_responseText (data aiResponse)) ;;
     res_json (Server.envelope text))
    (fun error => res_status_json 500 (alt_failure failure_text error)).

Definition llama : jsstr := lit "meta-llama/llama-3-8b-instruct".
Definition small_granite : jsstr := lit "ibm/granite-3-3-2b-instruct".

(** [app.post('/api/chat-v2', ...)] *)
Definition chat_v2 : environment -> http_request -> M unit :=
  alternative llama (lit "Both primary and alternative endpoints failed").

(** [app.post('/api/chat-v3', ...)] *)
Definition chat_v3 : environment -> http_request -> M unit :=
  alternative small_granite (lit "All endpoints failed").

(** [app.get('/api/health', ...)]; the time and the version of the runtime
    are inputs. *)
Definition health (env : environment) (timestamp nodeVersion : jsstr) : M unit :=
  res_json
    (VObj [(lit "status", VStr (lit "OK"));
           (lit "timestamp", VStr timestamp);
           (lit "environment",
            VObj [(lit "hasApiKey", VBool (truthy (env_value (env_IBM_API_KEY env))));
                  (lit "hasProjectId", VBool (truthy (env_value (env_PROJECT_ID env))));
                  (lit "nodeVersion", VStr nodeVersion);
                  (lit "endpoints",
                   VObj [(lit "primary", VStr Server.WATSONX_URL);
                         (lit "alternative",
                          VStr (lit "https://us-south.ml.cloud.ibm.com/ml/v1/text/generation?version=2023-05-29"))]);
                  (lit "supportedModels",
                   VArr [VStr (lit "ibm/granite-3-3-8b-instruct");
                         VStr (lit "ibm/granite-3-3-2b-instruct");
                         VStr (lit "meta-llama/llama-3-8b-instruct")])])]).

Definition connection_ok (token : value) : value :=
  VObj [(lit "success", VBool true);
        (lit "message", VStr (lit "Successfully obtained IAM token"));
        (lit "tokenExists", VBool (truthy token));
        (lit "endpoints",
         VObj [(lit "iam", VStr Server.IAM_URL);
               (lit "watsonx", VStr Server.WATSONX_URL)]);
        (lit "recommendedModels",
         VArr [VStr (lit "ibm/granite-3-3-8b-instruct (primary)");
               VStr (lit "ibm/granite-3-3-2b-instruct (smaller/faster)");
               VStr (lit "meta-llama/llama-3-8b-instruct (alternative)")])].

Definition connection_failed (error : JS.error) : value :=
  VObj [(lit "success", VBool false);
        (lit "error", VStr (message error));
        (lit "details", response_data error)].

(** [app.get('/api/test-connection', ...)] *)
Definition test_connection (env : environment) : M unit :=
  try_catch
    (token <- Server.getIAMToken env ;;
     res_json (connection_ok token))
    (fun error => res_status_json 500 (connection_failed error)).

End Routes.

(** ** The page script: [sendMessage], [addMessage], [formatMessage]

    Of the page, the model keeps the messages put into the chat box and
    the request sent to the backend; the button, the typing indicator, the
    scrolling and the character counter are not part of it. *)
Module Frontend.
Import JS Effects.
Local Open Scope js_scope.

Definition DQ : jschar := 34%N.

(** The CSS class that [addMessage] gets: ['user'], ['bot'] or ['error']. *)
Inductive css : Type := user | bot | error_class.

(** *** [formatMessage] *)

(** [s.replace(re, ...)] for a global expression that never matches the
    empty string: the match is tried at each index from left to right, a
    match is replaced and the search goes on behind it.  [try_match bol t]
    gives the length of the match at the head of [t] and its replacement;
    [bol] tells whether [t] begins the input or follows a line terminator,
    and [skip] counts the code units that the last match still covers. *)
Fixpoint replace_all (try_match : bool -> jsstr -> option (nat * jsstr))
    (bol : bool) (skip : nat) (s : jsstr) : jsstr :=
  match s with
  | [] => []
  | c :: s' =>
      match skip with
      | S k => replace_all try_match (is_line_terminator c) k s'
      | O =>
          match try_match bol s with
          | Some (len, out) =>
              out ++ replace_all try_match (is_line_terminator c) (Nat.pred len) s'
          | None => c :: replace_all try_match (is_line_terminator c) O s'
          end
      end
  end.

(** The length of the longest prefix whose code units satisfy [p]. *)
Fixpoint run_length (p : jschar -> bool) (s : jsstr) : nat :=
  match s with
  | c :: s' => if p c then S (run_length p s') else O
  | [] => O
  end.

Definition not_space (c : jschar) : bool := negb (is_space c).

(** A scheme followed by [[^\s]+], which is greedy and ends the
    expression. *)
Definition scheme_then_run (scheme s : jsstr) : option nat :=
  match strip_prefix scheme s with
  | Some r =>
      match run_length not_space r with
      | O => None
      | S k => Some (List.length scheme + S k)
      end
  | None => None
  end.

(** [/(https?:\/\/[^\s]+)/]: the optional [s] is tried first. *)
Definition url_length (s : jsstr) : option nat :=
  match scheme_then_run (lit "https://") s with
  | Some n => Some n
  | None => scheme_then_run (lit "http://") s
  end.

Definition anchor_open : jsstr := lit "<a href=" ++ [DQ].

Definition anchor_mid : jsstr :=
  [DQ] ++ lit " target=" ++ [DQ] ++ lit "_blank" ++ [DQ] ++
  lit " rel=" ++ [DQ] ++ lit "noopener noreferrer" ++ [DQ] ++
  lit " style=" ++ [DQ] ++ lit "color: #667eea; text-decoration: underline;" ++
  [DQ] ++ lit ">".

Definition anchor_close : jsstr := lit "</a>".

(** The replacement [<a href="$1" ...>$1</a>]. *)
Definition anchor (href : jsstr) : jsstr :=
  anchor_open ++ href ++ anchor_mid ++ href ++ anchor_close.

Definition url_match (_ : bool) (s : jsstr) : option (nat * jsstr) :=
  match url_length s with
  | Some n => Some (n, anchor (firstn n s))
  | None => None
  end.

(** [/(\d+\.\s)/] with the replacement [<br>$1]: all the digits, then a dot,
    then one white space. *)
Definition item_match (_ : bool) (s : jsstr) : option (nat * jsstr) :=
  match run_length is_digit s with
  | O => None
  | S k =>
      match skipn (S k) s with
      | dot :: w :: _ =>
          if (dot =? 46)%N && is_space w
          then Some (S k + 2, lit "<br>" ++ firstn (S k + 2) s)
          else None
      | _ => None
      end
  end.

Definition bullet : jsstr := lit "<br>" ++ [8226%N; 32%N].

(** [/^\s*\*\s/m] with the replacement [<br>• ]: at the beginning of a line,
    all the white space, then an asterisk, then one white space. *)
Definition bullet_match (bol : bool) (s : jsstr) : option (nat * jsstr) :=
  if bol then
    let k := run_length is_space s in
    match skipn k s with
    | star :: w :: _ =>
        if (star =? 42)%N && is_space w then Some (k + 2, bullet) else None
    | _ => None
    end
  else None.

Definition link_urls (s : jsstr) : jsstr := replace_all url_match true O s.
Definition break_items (s : jsstr) : jsstr := replace_all item_match true O s.
Definition break_bullets (s : jsstr) : jsstr := replace_all bullet_match true O s.

(** [formatMessage(text)] for a string. *)
Definition formatMessage (text : jsstr) : jsstr :=
  break_bullets (break_items (link_urls text)).

(** [addMessage(text, type)]: the markup assigned to [innerHTML] and the
    class of the new element; [text.replace] throws when [text] is no
    string. *)
Definition addMessage (text : value) (type : css) : completion (jsstr * css) :=
  match text with
  | VStr s => Normal (formatMessage s, type)
  | VUndefined => Throw (cannot_read (lit "undefined") (lit "replace"))
  | VNull => Throw (cannot_read (lit "null") (lit "replace"))
  | VBool _ | VNum _ | VArr _ | VObj _ =>
      Throw (TypeError (lit "text.replace is not a function"))
  end.

(** *** [sendMessage] *)

(** What [fetch] and [response.json()] give: a status and the parsed body,
    or the error with which [json()] rejects a body that is no JSON; or the
    error with which [fetch] rejects when no response arrives. *)
Inductive fetched : Type :=
| Answered (code : Z) (json : completion value)
| NoAnswer (e : JS.error).

(** [response.ok] *)
Definition ok (code : Z) : bool := (200 <=? code)%Z && (code <=? 299)%Z.

Definition unexpected_format : jsstr :=
  lit "Sorry, I received an unexpected response format.".

Definition no_reply : jsstr :=
  lit "Sorry, I couldn't generate a response. Please try again.".

Definition oops : jsstr :=
  lit "Oops! Something went wrong. Please try again later.".

(** [data.choices && data.choices.length > 0 && data.choices[0].message] *)
Definition has_choice (data : value) : completion bool :=
  let* choices := get_prop data (lit "choices") in
  if truthy choices then
    let* len := get_length choices in
    let* positive := gt_zero len in
    if positive then
      let* first := get_index choices 0 in
      let* msg := get_prop first (lit "message") in
      Normal (truthy msg)
    else Normal false
  else Normal false.

(** [data.results && data.results[0] && data.results[0].generated_text] *)
Definition has_result (data : value) : completion bool :=
  let* results := get_prop data (lit "results") in
  if truthy results then
    let* first := get_index results 0 in
    if truthy first then
      let* generated_text := get_prop first (lit "generated_text") in
      Normal (truthy generated_text)
    else Normal false
  else Normal false.

(** The value of [aiReply] after the chain of [if]s. *)
Definition aiReply (data : value) : completion value :=
  let* choice := has_choice data in
  if choice then
    let* choices := get_prop data (lit "choices") in
    let* first := get_index choices 0 in
    let* msg := get_prop first (lit "message") in
    get_prop msg (lit "content")
  else
    let* result := has_result data in
    if result then
      let* results := get_prop data (lit "results") in
      let* first := get_index results 0 in
      get_prop first (lit "generated_text")
    else
      let* msg := get_prop data (lit "message") in
      if truthy msg then Normal msg
      else Normal (VStr unexpected_format).

(** [new Error(msg)] *)
Definition Error (msg : jsstr) : JS.error :=
  {| response := None; request := false; message := msg |}.

(** The body of the [try]: what the timer will hand to [addMessage]. *)
Definition reply_message (f : fetched) : completion (value * css) :=
  match f with
  | NoAnswer e => Throw e
  | Answered code json =>
      if negb (ok code)
      then Throw (Error (lit "HTTP error! status: " ++ decimal code))
      else
        let* data := json in
        let* reply := aiReply data in
        if truthy reply then Normal (reply, bot)
        else Normal (VStr no_reply, error_class)
  end.

(** With the [catch]: every outcome ends in one message. *)
Definition shown (f : fetched) : value * css :=
  match reply_message f with
  | Normal m => m
  | Throw _ => (VStr oops, error_class)
  end.

(** What [sendMessage] does that can be seen from outside, in order. *)
Inductive page_event : Type :=
| AddMessage (text : value) (type : css)
| Fetch (json : value).

Definition chat_body (messageText : jsstr) : value :=
  VObj [(lit "message", VStr messageText)].

(** [sendMessage] on the content of the input field, against a backend
    that answers the posted body. *)
Definition sendMessage (input : jsstr) (backend : value -> fetched)
    : list page_event :=
  let messageText := trim input in
  match messageText with
  | [] => []
  | _ :: _ =>
      let (text, type) := shown (backend (chat_body messageText)) in
      [AddMessage (VStr messageText) user;
       Fetch (chat_body messageText);
       AddMessage text type]
  end.

(** The Express route behind [fetch('/api/chat')]: the page posts JSON and
    gets the status and the JSON body that the route sends.  The page reads
    the body of a 2xx answer only, which from this route is the envelope of
    a string, and JSON carries that unchanged.  A route that sent nothing
    would leave the page without an answer. *)
Definition express (env : environment) (net : network) (json : value) : fetched :=
  match responses (run (Server.api_chat env
                          {| method := lit "POST"; req_body := json |}) net) with
  | (code, sent) :: _ => Answered code (Normal sent)
  | [] => NoAnswer (Error (lit "Failed to fetch"))
  end.

End Frontend.

(** ** Shapes of text used in the statements about [formatMessage] *)
Module Markup.
Import JS.

Definition is_asterisk (c : jschar) : bool := (c =? 42)%N.


End Markup.

(** ** Properties *)

Import JS Effects.
Unset Implicit Arguments.

(** Unfolding of a handler down to the events it appends. *)
Ltac run_handler :=
  unfold run, ApiChat.handler, ApiChatCjs.handler, Serverless.handler_with,
    Server.api_chat, Server.getIAMToken, Server.on_error,
    try_catch, bind, lift, throw, ret, res_status_json, res_json, emit,
    axios_post.

(** Case analysis on the innermost scrutinee of the goal. *)
Ltac case_step :=
  match goal with
  | |- context [match ?x with _ => _ end] =>
      lazymatch x with
      | context [match _ with _ => _ end] => fail
      | _ => destruct x eqn:?
      end
  end.

Ltac all_cases :=
  repeat (cbn [negb fst snd app responses posts flat_map List.length
               response request message status data
               timeout config Server.iam_config Server.generation_config
               Serverless.iam_config Routes.alt_config];
          case_step;
          cbn [negb fst snd app responses posts flat_map List.length
               response request message status data]).

(** *** Strings *)

Lemma str_eqb_eq (a b : jsstr) : str_eqb a b = true <-> a = b.
Proof.
  revert b; induction a as [|x a IH]; intros [|y b]; simpl; split;
    try congruence; try easy.
  - rewrite andb_true_iff, N.eqb_eq, IH. intros [-> ->]; reflexivity.
  - intros [= -> ->]. rewrite N.eqb_refl. simpl. apply IH. reflexivity.
Qed.

Lemma str_eqb_refl (a : jsstr) : str_eqb a a = true.
Proof. apply str_eqb_eq. reflexivity. Qed.

Lemma str_eqb_neq (a b : jsstr) : a <> b -> str_eqb a b = false.
Proof.
  intros H. destruct (str_eqb a b) eqn:E; [|reflexivity].
  apply str_eqb_eq in E. contradiction.
Qed.

Lemma nonempty_truthy s : s <> [] -> truthy (VStr s) = true.
Proof. destruct s; [contradiction | reflexivity]. Qed.

Lemma strip_prefix_app p r : strip_prefix p (p ++ r) = Some r.
Proof.
  induction p as [|x p IH]; [reflexivity|].
  cbn [strip_prefix app]. rewrite N.eqb_refl. exact IH.
Qed.

Lemma trim_start_idempotent s : trim_start (trim_start s) = trim_start s.
Proof.
  induction s as [|c s IH]; [reflexivity|].
  cbn [trim_start]. destruct (is_space c) eqn:E; [exact IH|].
  cbn [trim_start]. rewrite E. reflexivity.
Qed.

Lemma trim_of_trim_start s : trim (trim_start s) = trim s.
Proof. unfold trim. rewrite trim_start_idempotent. reflexivity. Qed.

(** *** Template literals and the engine's own errors *)

Lemma template_literal_ok t :
  existsb substitution_throws t = false -> template_literal t = Normal t.
Proof. intros H. unfold template_literal. rewrite H. reflexivity. Qed.

Lemma template_literal_normal t t' : template_literal t = Normal t' -> t' = t.
Proof. unfold template_literal. destruct (existsb _ _); congruence. Qed.

Lemma template_literal_throws_plain t e :
  template_literal t = Throw e -> response e = None /\ request e = false.
Proof.
  unfold template_literal. destruct (existsb _ _); [|discriminate].
  intros [= <-]. split; reflexivity.
Qed.

Lemma get_prop_throws_plain v name e :
  get_prop v name = Throw e -> response e = None /\ request e = false.
Proof. destruct v; cbn; try discriminate; intros [= <-]; split; reflexivity. Qed.

Lemma responseText_throws_plain d e :
  Server.responseText d = Throw e -> response e = None /\ request e = false.
Proof.
  unfold Server.responseText, and_then, Server.replace_and_trim, gt_zero,
    get_prop, get_length, get_index, cannot_read, TypeError.
  all_cases; try discriminate; intros [= <-]; split; reflexivity.
Qed.

Lemma server_iam_template k :
  template_literal (Server.iam_body (env_value k))
  = Normal (Server.iam_body (env_value k)).
Proof. destruct k; reflexivity. Qed.

Lemma serverless_iam_template k :
  template_literal (Serverless.iam_body (env_value k))
  = Normal (Serverless.iam_body (env_value k)).
Proof. destruct k; reflexivity. Qed.

Lemma serverless_bearer_template token :
  conversion_throws token = false ->
  template_literal (Serverless.bearer token) = Normal (Serverless.bearer token).
Proof.
  intros H. apply template_literal_ok. unfold Serverless.bearer.
  cbn [existsb substitution_throws]. rewrite H. reflexivity.
Qed.

Lemma server_bearer_template token :
  conversion_throws token = false ->
  template_literal (Server.bearer token) = Normal (Server.bearer token).
Proof.
  intros H. apply template_literal_ok. unfold Server.bearer.
  cbn [existsb substitution_throws]. rewrite H. reflexivity.
Qed.

Lemma server_input_template msg :
  conversion_throws msg = false ->
  template_literal (Server.input_template msg) = Normal (Server.input_template msg).
Proof.
  intros H. apply template_literal_ok. unfold Server.input_template.
  cbn [existsb substitution_throws]. rewrite H. reflexivity.
Qed.

(** Without an API key the form sent to the identity service reads
    [apikey=undefined]. *)
Example iam_form_without_key :
  render (Serverless.iam_body (env_value None))
  = Some (lit "grant_type=urn:ibm:params:oauth:grant-type:apikey&apikey=undefined").
Proof. reflexivity. Qed.

(** *** The serverless functions, stage by stage *)
Section ServerlessPipeline.

Variables (url : jsstr) (env : environment) (req : http_request)
          (net : network) (msg : value).

Lemma serverless_wrong_method :
  method req <> lit "POST" ->
  run (Serverless.handler_with url env req) net
  = [Respond 405 Serverless.method_not_allowed].
Proof.
  intros H. run_handler. rewrite (str_eqb_neq _ _ H). reflexivity.
Qed.

(** No call of a serverless function carries a timeout, so a silent
    upstream leaves the invocation pending, without an answer.  In every
    other case there is exactly one answer. *)
Lemma serverless_responds_unless_silent :
  (responses (run (Serverless.handler_with url env req) net) = []
   /\ exists r, In r (posts (run (Serverless.handler_with url env req) net))
                /\ net r = Silent /\ timeout (config r) = None)
  \/ (List.length (responses (run (Serverless.handler_with url env req) net)) = 1
      /\ forall r, In r (posts (run (Serverless.handler_with url env req) net)) ->
                   net r <> Silent).
Proof.
  run_handler. all_cases;
    first [ right; split; [reflexivity|];
            intros r Hin; cbn [In] in Hin;
            repeat (destruct Hin as [<-|Hin];
                    [match goal with
                     | H : net ?x = _ |- net ?x <> _ => rewrite H; discriminate
                     end|]);
            contradiction
          | left; split; [reflexivity|];
            eexists; split; [|split; [eassumption|reflexivity]];
            cbn [In]; auto ].
Qed.

Lemma serverless_responds_at_most_once :
  List.length (responses (run (Serverless.handler_with url env req) net)) <= 1.
Proof.
  destruct serverless_responds_unless_silent as [[-> _]|[-> _]]; cbn; lia.
Qed.

Hypothesis Hpost : method req = lit "POST".
Hypothesis Hmessage : get_prop (req_body req) (lit "message") = Normal msg.

Lemma serverless_falsy_message :
  truthy msg = false ->
  run (Serverless.handler_with url env req) net
  = [Respond 400 Serverless.empty_message].
Proof.
  intros Ht. run_handler. rewrite Hpost, str_eqb_refl, Hmessage, Ht. reflexivity.
Qed.

Hypothesis Htruthy : truthy msg = true.

(** There is no configuration check: a truthy message on a POST leads
    straight to the token exchange. *)
Lemma serverless_starts_token_exchange :
  exists rest,
    run (Serverless.handler_with url env req) net
    = Post (Serverless.iam_request env) :: rest.
Proof.
  run_handler. rewrite Hpost, str_eqb_refl, Hmessage, Htruthy. cbn [negb].
  rewrite serverless_iam_template. fold (Serverless.iam_request env).
  all_cases; eexists; reflexivity.
Qed.

(** The token exchange does not end with a 2xx response: one call, and the
    generic error response unless the identity service stays silent. *)
Lemma serverless_token_exchange_failed o :
  net (Serverless.iam_request env) = o ->
  Spec.failed o ->
  run (Serverless.handler_with url env req) net
  = Post (Serverless.iam_request env)
    :: match o with
       | Responded _ _ | NoResponse _ | NotSent _ =>
           [Respond 500 Serverless.internal_error]
       | Silent => []
       end.
Proof.
  intros Hn Hf. run_handler.
  rewrite Hpost, str_eqb_refl, Hmessage, Htruthy. cbn [negb].
  rewrite serverless_iam_template. fold (Serverless.iam_request env).
  rewrite Hn.
  destruct o as [code d|m|m|]; cbn in Hf; [rewrite Hf|..]; reflexivity.
Qed.

Variables (c1 : Z) (d1 token : value).
Hypothesis Hiam : net (Serverless.iam_request env) = Responded c1 d1.
Hypothesis Hstatus : validateStatus c1 = true.
Hypothesis Htoken : get_prop d1 (lit "access_token") = Normal token.

(** Up to the token. *)
Ltac serverless_to_token :=
  run_handler; rewrite Hpost, str_eqb_refl, Hmessage, Htruthy; cbn [negb];
  rewrite serverless_iam_template; fold (Serverless.iam_request env);
  rewrite Hiam, Hstatus; cbn [data]; rewrite Htoken.

Lemma serverless_conversion_throws :
  conversion_throws token = true ->
  run (Serverless.handler_with url env req) net
  = [Post (Serverless.iam_request env); Respond 500 Serverless.internal_error].
Proof.
  intros Hct. serverless_to_token.
  unfold template_literal, Serverless.bearer.
  cbn [existsb substitution_throws]. rewrite Hct. reflexivity.
Qed.

(** The inference call and what follows it. *)
Lemma serverless_after_inference :
  conversion_throws token = false ->
  run (Serverless.handler_with url env req) net
  = Post (Serverless.iam_request env)
    :: Post (Serverless.scoring_request url env msg token)
    :: match net (Serverless.scoring_request url env msg token) with
       | Responded code d =>
           [if validateStatus code then Respond 200 d
            else Respond 500 Serverless.internal_error]
       | NoResponse _ | NotSent _ => [Respond 500 Serverless.internal_error]
       | Silent => []
       end.
Proof.
  intros Hct. serverless_to_token.
  rewrite (serverless_bearer_template _ Hct).
  fold (Serverless.scoring_request url env msg token).
  destruct (net (Serverless.scoring_request url env msg token)) as [code d|m|m|];
    [destruct (validateStatus code)|..]; reflexivity.
Qed.

End ServerlessPipeline.

(** *** The Express route, stage by stage *)
Section ExpressPipeline.

Variables (env : environment) (req : http_request) (net : network) (msg : value).

Lemma server_responds_once :
  List.length (responses (run (Server.api_chat env req) net)) = 1.
Proof. run_handler. all_cases; reflexivity. Qed.

Hypothesis Hmessage : get_prop (req_body req) (lit "message") = Normal msg.

Lemma server_falsy_message :
  truthy msg = false ->
  run (Server.api_chat env req) net = [Respond 400 Server.empty_message].
Proof.
  intros Ht. run_handler. rewrite Hmessage, Ht. reflexivity.
Qed.

Hypothesis Htruthy : truthy msg = true.

Lemma server_api_key_missing :
  truthy (env_value (env_IBM_API_KEY env)) = false ->
  run (Server.api_chat env req) net = [Respond 500 Server.api_key_missing].
Proof.
  intros Hk. run_handler. rewrite Hmessage, Htruthy, Hk. reflexivity.
Qed.

Lemma server_project_id_missing :
  truthy (env_value (env_IBM_API_KEY env)) = true ->
  truthy (env_value (env_PROJECT_ID env)) = false ->
  run (Server.api_chat env req) net = [Respond 500 Server.project_id_missing].
Proof.
  intros Hk Hp. run_handler. rewrite Hmessage, Htruthy, Hk, Hp. reflexivity.
Qed.

Hypothesis Hkey : truthy (env_value (env_IBM_API_KEY env)) = true.
Hypothesis Hproject : truthy (env_value (env_PROJECT_ID env)) = true.

(** Up to the call of the identity service. *)
Ltac server_to_iam :=
  run_handler; rewrite Hmessage, Htruthy, Hkey, Hproject; cbn [negb];
  rewrite server_iam_template; fold (Server.iam_request env).

Lemma server_starts_token_exchange :
  exists rest,
    run (Server.api_chat env req) net = Post (Server.iam_request env) :: rest.
Proof. server_to_iam. all_cases; eexists; reflexivity. Qed.

(** The token exchange fails: one call, one error response, whose status is
    the identity service's own when it answered. *)
Lemma server_token_exchange_failed o :
  net (Server.iam_request env) = o ->
  Spec.failed o ->
  run (Server.api_chat env req) net
  = [Post (Server.iam_request env);
     match o with
     | Responded code d =>
         Respond code (Server.upstream_failure {| status := code; data := d |})
     | NoResponse _ | Silent => Respond 500 Server.connection_timeout
     | NotSent m => Respond 500 (Server.setup_failure m)
     end].
Proof.
  intros Hn Hf. server_to_iam. rewrite Hn.
  destruct o as [code d|m|m|]; cbn in Hf; [rewrite Hf|..]; reflexivity.
Qed.

Variables (c1 : Z) (d1 token : value).
Hypothesis Hiam : net (Server.iam_request env) = Responded c1 d1.
Hypothesis Hstatus : validateStatus c1 = true.
Hypothesis Htoken : get_prop d1 (lit "access_token") = Normal token.

Ltac server_to_token :=
  server_to_iam; rewrite Hiam, Hstatus; cbn [data]; rewrite Htoken.

(** A payload or a header with a value that has no string form: the error
    is thrown after the token exchange and before the inference call. *)
Lemma server_conversion_throws :
  conversion_throws msg = true \/ conversion_throws token = true ->
  run (Server.api_chat env req) net
  = [Post (Server.iam_request env);
     Respond 500 (Server.setup_failure
                    (lit "Cannot convert object to primitive value"))].
Proof.
  intros Hc. server_to_token.
  unfold template_literal, Server.input_template, Server.bearer.
  cbn [existsb substitution_throws].
  destruct (conversion_throws msg); [reflexivity|].
  destruct Hc as [Hc|Hc]; [discriminate|]. rewrite Hc. reflexivity.
Qed.

(** The inference call and what follows it. *)
Lemma server_after_inference :
  conversion_throws msg = false ->
  conversion_throws token = false ->
  run (Server.api_chat env req) net
  = [Post (Server.iam_request env);
     Post (Server.generation_request env msg token);
     match net (Server.generation_request env msg token) with
     | Responded code d =>
         if validateStatus code then
           match Server.responseText d with
           | Normal text => Respond 200 (Server.formattedResponse text)
           | Throw e => Respond 500 (Server.setup_failure (message e))
           end
         else Respond code (Server.upstream_failure {| status := code; data := d |})
     | NoResponse _ | Silent => Respond 500 Server.connection_timeout
     | NotSent m => Respond 500 (Server.setup_failure m)
     end].
Proof.
  intros Hc Hct. server_to_token.
  rewrite (server_input_template _ Hc), (server_bearer_template _ Hct).
  fold (Server.generation_request env msg token).
  destruct (net (Server.generation_request env msg token)) as [code d|m|m|];
    [destruct (validateStatus code)|..]; cbn [data]; try reflexivity.
  destruct (Server.responseText d) as [text|e] eqn:Hr; [reflexivity|].
  destruct (responseText_throws_plain d e Hr) as [Hresp Hreq].
  rewrite Hresp, Hreq. reflexivity.
Qed.

End ExpressPipeline.

(** *** The response normalizer of the Express route *)

Lemma content_string text :
  Server.content text
  = VStr match text with [] => Server.fallback | _ :: _ => text end.
Proof. destruct text; reflexivity. Qed.

Lemma content_nonempty text :
  match text with [] => Server.fallback | _ :: _ => text end <> [].
Proof. destruct text; discriminate. Qed.

Lemma responseText_no_results aiData r :
  get_prop aiData (lit "results") = Normal r ->
  truthy r = false ->
  Server.responseText aiData = Normal [].
Proof.
  intros Hr Ht. unfold Server.responseText. rewrite Hr. cbn [and_then].
  rewrite Ht. reflexivity.
Qed.

Lemma responseText_empty_results aiData :
  get_prop aiData (lit "results") = Normal (VArr []) ->
  Server.responseText aiData = Normal [].
Proof. intros Hr. unfold Server.responseText. rewrite Hr. reflexivity. Qed.

Lemma length_positive n : gt_zero (VNum (num_of_nat (S n))) = Normal true.
Proof. reflexivity. Qed.

Lemma responseText_generated aiData first rest s :
  get_prop aiData (lit "results") = Normal (VArr (first :: rest)) ->
  get_prop first (lit "generated_text") = Normal (VStr s) ->
  Server.responseText aiData = Normal (trim (replace_prompt s)).
Proof.
  intros Hr Hg. unfold Server.responseText. rewrite Hr.
  cbn [and_then truthy get_length List.length].
  rewrite length_positive.
  cbn [and_then get_index nth]. rewrite Hg. reflexivity.
Qed.

Lemma readable_responseText aiData :
  Spec.readable aiData -> exists text, Server.responseText aiData = Normal text.
Proof.
  intros [(r & Hr & Ht) | [Hr | (first & rest & s & Hr & Hg)]].
  - exists []. exact (responseText_no_results aiData r Hr Ht).
  - exists []. exact (responseText_empty_results aiData Hr).
  - exists (trim (replace_prompt s)).
    exact (responseText_generated aiData first rest s Hr Hg).
Qed.

(** A first result without [generated_text] is not among the shapes the
    route can read: [undefined.replace] throws, and the [catch] turns the
    error into a 500. *)
Example server_result_without_text :
  Server.responseText (VObj [(lit "results", VArr [VObj []])])
  = Throw (TypeError (lit "Cannot read properties of undefined (reading 'replace')"))
  /\ responses (run (Server.api_chat Scenario.configured (Scenario.post Scenario.hi))
                  (Scenario.healthy (VObj [(lit "results", VArr [VObj []])])))
     = [(500%Z, Server.setup_failure
                  (lit "Cannot read properties of undefined (reading 'replace')"))].
Proof. split; vm_compute; reflexivity. Qed.

(** *** The prompt-stripping expression *)

(** A marker whose first code unit does not occur again in it cannot
    overlap itself: a match of a later part [P] of the marker cannot begin
    inside [X] and end inside the marker that follows [X]. *)
Lemma strip_prefix_no_straddle a M' P X R :
  ~ In a P ->
  strip_prefix P X = None ->
  strip_prefix P (X ++ (a :: M') ++ R) = None.
Proof.
  revert X; induction P as [|p P IH]; intros X Hin H; [discriminate H|].
  destruct X as [|x X].
  - cbn [app strip_prefix].
    destruct (N.eqb_spec p a) as [->|_]; [|reflexivity].
    exfalso. apply Hin. left. reflexivity.
  - cbn [app strip_prefix] in *.
    destruct (N.eqb p x); [|reflexivity].
    apply IH; [|exact H]. intros Hp. apply Hin. right. exact Hp.
Qed.

Lemma marker_no_straddle X R :
  X <> [] ->
  strip_prefix (lit "Assistant:") X = None ->
  strip_prefix (lit "Assistant:") (X ++ lit "Assistant:" ++ R) = None.
Proof.
  intros Hne H. destruct X as [|x X]; [contradiction|]. clear Hne.
  change (lit "Assistant:") with (65%N :: lit "ssistant:") in *.
  cbn [app strip_prefix] in *.
  destruct (N.eqb 65 x); [|reflexivity].
  apply (strip_prefix_no_straddle 65%N (lit "ssistant:") (lit "ssistant:") X R);
    [|exact H].
  vm_compute. intuition discriminate.
Qed.

Lemma lazy_dots_then_hit marker s r :
  strip_prefix marker s = Some r -> lazy_dots_then marker s = Some r.
Proof. intros H. destruct s; cbn [lazy_dots_then]; rewrite H; reflexivity. Qed.

Lemma lazy_dots_then_miss marker c s :
  strip_prefix marker (c :: s) = None ->
  is_line_terminator c = false ->
  lazy_dots_then marker (c :: s) = lazy_dots_then marker s.
Proof. intros H Hc. cbn [lazy_dots_then]. rewrite H, Hc. reflexivity. Qed.

(** The lazy dots stop at the first marker of the line. *)
Lemma lazy_dots_finds_marker X R :
  existsb is_line_terminator X = false ->
  Spec.contains (lit "Assistant:") X = false ->
  lazy_dots_then (lit "Assistant:") (X ++ lit "Assistant:" ++ R) = Some R.
Proof.
  induction X as [|c X IH]; intros Hlt Hc.
  - rewrite app_nil_l. apply lazy_dots_then_hit. apply strip_prefix_app.
  - cbn [existsb] in Hlt. apply orb_false_iff in Hlt. destruct Hlt as [Hc0 Hlt].
    cbn [Spec.contains] in Hc.
    destruct (strip_prefix (lit "Assistant:") (c :: X)) eqn:Hs; [discriminate|].
    pose proof (marker_no_straddle (c :: X) R
                  ltac:(discriminate) Hs) as Hmiss.
    change ((c :: X) ++ lit "Assistant:" ++ R)
      with (c :: (X ++ lit "Assistant:" ++ R)) in *.
    rewrite (lazy_dots_then_miss _ _ _ Hmiss Hc0). exact (IH Hlt Hc).
Qed.

Lemma replace_prompt_same_line X Y :
  existsb is_line_terminator X = false ->
  Spec.contains (lit "Assistant:") X = false ->
  replace_prompt (lit "Human:" ++ X ++ lit "Assistant:" ++ Y) = trim_start Y.
Proof.
  intros Hlt Hc. unfold replace_prompt.
  rewrite strip_prefix_app, (lazy_dots_finds_marker X Y Hlt Hc). reflexivity.
Qed.

(** ** The claims *)

(** C1 (amended): on a successful request the Express route answers 200
    with the canonical envelope,
    [{ choices: [{ index: 0, message: { content, role: "assistant" } }] }]
    with a string as [content], whenever the normalizer can read the
    upstream body, which includes the three shapes it is written for; the
    serverless functions answer 200 with the upstream body as received. *)
Theorem C1_success_response :
  (forall env req net msg c1 d1 token c2 aiData text,
     get_prop (req_body req) (lit "message") = Normal (VStr msg) ->
     msg <> [] ->
     truthy (env_value (env_IBM_API_KEY env)) = true ->
     truthy (env_value (env_PROJECT_ID env)) = true ->
     net (Server.iam_request env) = Responded c1 d1 ->
     validateStatus c1 = true ->
     get_prop d1 (lit "access_token") = Normal token ->
     conversion_throws token = false ->
     net (Server.generation_request env (VStr msg) token) = Responded c2 aiData ->
     validateStatus c2 = true ->
     Server.responseText aiData = Normal text ->
     run (Server.api_chat env req) net
     = [Post (Server.iam_request env);
        Post (Server.generation_request env (VStr msg) token);
        Respond 200
          (VObj [(lit "choices",
                  VArr [VObj [(lit "index", VNum (num_of_Z 0));
                              (lit "message",
                               VObj [(lit "content",
                                      VStr match text with
                                           | [] => lit "I'm sorry, I couldn't generate a response. Please try again."
                                           | _ :: _ => text
                                           end);
                                     (lit "role", VStr (lit "assistant"))])]])])])
  /\ (forall aiData,
        Spec.readable aiData ->
        exists text, Server.responseText aiData = Normal text)
  /\ (forall url env req net msg c1 d1 token c2 aiData,
        method req = lit "POST" ->
        get_prop (req_body req) (lit "message") = Normal (VStr msg) ->
        msg <> [] ->
        net (Serverless.iam_request env) = Responded c1 d1 ->
        validateStatus c1 = true ->
        get_prop d1 (lit "access_token") = Normal token ->
        conversion_throws token = false ->
        net (Serverless.scoring_request url env (VStr msg) token)
        = Responded c2 aiData ->
        validateStatus c2 = true ->
        run (Serverless.handler_with url env req) net
        = [Post (Serverless.iam_request env);
           Post (Serverless.scoring_request url env (VStr msg) token);
           Respond 200 aiData]).
Proof.
  split; [|split].
  - intros env req net msg c1 d1 token c2 aiData text
           Hm Hne Hk Hp Hn Hv Htok Hct Hg Hgv Hr.
    rewrite (server_after_inference env req net (VStr msg)
               Hm (nonempty_truthy msg Hne) Hk Hp c1 d1 token Hn Hv Htok
               eq_refl Hct).
    rewrite Hg, Hgv, Hr. unfold Server.formattedResponse.
    rewrite content_string. reflexivity.
  - exact readable_responseText.
  - intros url env req net msg c1 d1 token c2 aiData
           Hpost Hm Hne Hn Hv Htok Hct Hg Hgv.
    rewrite (serverless_after_inference url env req net (VStr msg)
               Hpost Hm (nonempty_truthy msg Hne) c1 d1 token Hn Hv Htok Hct).
    rewrite Hg, Hgv. reflexivity.
Qed.

Lemma C1_witness :
  run (Server.api_chat Scenario.configured (Scenario.post Scenario.hi))
    (Scenario.healthy (Scenario.generated (lit "hello")))
  = [Post (Server.iam_request Scenario.configured);
     Post (Server.generation_request Scenario.configured Scenario.hi
             (VStr (lit "T")));
     Respond 200
       (VObj [(lit "choices",
               VArr [VObj [(lit "index", VNum (num_of_Z 0));
                           (lit "message",
                            VObj [(lit "content", VStr (lit "hello"));
                                  (lit "role", VStr (lit "assistant"))])]])])].
Proof.
  refine (proj1 C1_success_response Scenario.configured
            (Scenario.post Scenario.hi)
            (Scenario.healthy (Scenario.generated (lit "hello")))
            (lit "hi") 200%Z Scenario.token_data (VStr (lit "T")) 200%Z
            (Scenario.generated (lit "hello")) (lit "hello")
            eq_refl _ eq_refl eq_refl eq_refl eq_refl eq_refl eq_refl
            eq_refl eq_refl eq_refl).
  discriminate.
Defined.

(** C1 as stated fails: with a valid message, a token and a 2xx inference
    response the ES-module function answers 200 with the upstream body,
    [{ results: [{ generated_text: "hello" }] }], which has no [choices]
    and is not the envelope. *)
Lemma C1_counterexample :
  run (ApiChat.handler Scenario.configured (Scenario.post Scenario.hi))
    (Scenario.healthy (Scenario.generated (lit "hello")))
  = [Post (Serverless.iam_request Scenario.configured);
     Post (Serverless.scoring_request ApiChat.SCORING_URL Scenario.configured
             Scenario.hi (VStr (lit "T")));
     Respond 200
       (VObj [(lit "results",
               VArr [VObj [(lit "generated_text", VStr (lit "hello"))]])])]
  /\ ~ Spec.canonical
         (VObj [(lit "results",
                 VArr [VObj [(lit "generated_text", VStr (lit "hello"))]])]).
Proof.
  split; [vm_compute; reflexivity|].
  intros [s Hs]. vm_compute in Hs. discriminate Hs.
Qed.

(** C2 (amended): when the echoed prompt and the marker are on one line,
    that is [X] holds no line terminator and no earlier marker, the text up
    to and including [Assistant:] and the white space after it is removed
    and the content is the trimmed rest; for the shape [{}], and for every
    input whose extracted text is empty, the content is the fallback string
    of the source, which begins with [I'm sorry,]. *)
Theorem C2_normalizer_content (X Y : jsstr) :
  existsb is_line_terminator X = false ->
  Spec.contains (lit "Assistant:") X = false ->
  Server.extracted_content
    (VObj [(lit "results",
            VArr [VObj [(lit "generated_text",
                         VStr (lit "Human:" ++ X ++ lit "Assistant:" ++ Y))]])])
  = Normal (VStr match trim Y with [] => Server.fallback | _ :: _ => trim Y end)
  /\ Server.extracted_content (VObj []) = Normal (VStr Server.fallback)
  /\ (forall aiData,
        Server.responseText aiData = Normal [] ->
        Server.extracted_content aiData = Normal (VStr Server.fallback))
  /\ Server.fallback
     = lit "I'm sorry, I couldn't generate a response. Please try again.".
Proof.
  intros Hlt Hc. split; [|split; [|split]].
  - unfold Server.extracted_content.
    rewrite (responseText_generated
               (VObj [(lit "results",
                       VArr [VObj [(lit "generated_text",
                                    VStr (lit "Human:" ++ X ++ lit "Assistant:"
                                          ++ Y))]])])
               (VObj [(lit "generated_text",
                       VStr (lit "Human:" ++ X ++ lit "Assistant:" ++ Y))])
               [] (lit "Human:" ++ X ++ lit "Assistant:" ++ Y) eq_refl eq_refl).
    rewrite (replace_prompt_same_line X Y Hlt Hc), trim_of_trim_start.
    cbn [and_then]. rewrite content_string. reflexivity.
  - reflexivity.
  - intros aiData Hr. unfold Server.extracted_content. rewrite Hr. reflexivity.
  - reflexivity.
Qed.

(** [Human: X Assistant: Y] on one line gives [Y]. *)
Lemma C2_witness :
  Server.extracted_content
    (VObj [(lit "results",
            VArr [VObj [(lit "generated_text",
                         VStr (lit "Human:" ++ lit " X " ++ lit "Assistant:"
                               ++ lit " Y"))]])])
  = Normal (VStr (lit "Y")).
Proof.
  exact (proj1 (C2_normalizer_content (lit " X ") (lit " Y") eq_refl eq_refl)).
Defined.

(** C2 as stated fails twice: for [Human: X\n\nAssistant: Y] the dot of the
    expression does not cross the line breaks, nothing is removed and the
    content is the whole text; and the fallback is not the string that the
    specification quotes. *)
Lemma C2_counterexample :
  Server.extracted_content (Scenario.generated Scenario.echoed)
  = Normal (VStr Scenario.echoed)
  /\ Scenario.echoed <> lit "Y"
  /\ Server.extracted_content (VObj []) = Normal (VStr Server.fallback)
  /\ Server.fallback <> Spec.quoted_fallback.
Proof.
  split; [vm_compute; reflexivity|].
  split; [discriminate|].
  split; [reflexivity | discriminate].
Qed.

(** C3 (amended): an empty message gets 400 from the Express route, whatever
    the configuration, and from both serverless functions on a POST; the
    trace holds nothing but that response, so no outbound call is made. *)
Theorem C3_empty_message_is_400 (env : environment) (req : http_request)
    (net : network) :
  get_prop (req_body req) (lit "message") = Normal (VStr []) ->
  run (Server.api_chat env req) net = [Respond 400 Server.empty_message]
  /\ (method req = lit "POST" ->
      run (ApiChat.handler env req) net = [Respond 400 Serverless.empty_message]
      /\ run (ApiChatCjs.handler env req) net
         = [Respond 400 Serverless.empty_message]).
Proof.
  intros Hm. split.
  - exact (server_falsy_message env req net (VStr []) Hm eq_refl).
  - intros Hp. unfold ApiChat.handler, ApiChatCjs.handler.
    split; exact (serverless_falsy_message _ env req net (VStr []) Hp Hm eq_refl).
Qed.

Lemma C3_witness :
  get_prop (req_body (Scenario.post (VStr []))) (lit "message") = Normal (VStr [])
  /\ run (Server.api_chat Scenario.no_api_key (Scenario.post (VStr [])))
       (Scenario.healthy VNull)
     = [Respond 400 Server.empty_message].
Proof.
  split; [reflexivity|].
  exact (proj1 (C3_empty_message_is_400 Scenario.no_api_key
                  (Scenario.post (VStr [])) (Scenario.healthy VNull) eq_refl)).
Defined.

(** C3 as stated fails: a message of one space is not empty for the check
    [!userMessage]; the Express route calls both upstream services and
    answers 200. *)
Lemma C3_counterexample :
  Spec.whitespace_only (lit " ")
  /\ responses (run (Server.api_chat Scenario.configured
                       (Scenario.post (VStr (lit " "))))
                  (Scenario.healthy (VObj [])))
     = [(200%Z, Server.formattedResponse [])]
  /\ List.length (posts (run (Server.api_chat Scenario.configured
                                (Scenario.post (VStr (lit " "))))
                           (Scenario.healthy (VObj [])))) = 2.
Proof.
  split; [split; [discriminate | reflexivity] |].
  split; vm_compute; reflexivity.
Qed.

(** C4 (amended): the Express route turns a failed inference call into one
    response by the taxonomy of its [catch]: the upstream status, with the
    upstream body under [details], when the upstream answered outside 2xx;
    500 with the connectivity hint when no answer came, be it an error on
    the way or the timeout of the call; 500 with the error text when the
    request could not be issued.  Every invocation of the Express route
    answers exactly once.  A serverless function answers at most once: it
    answers nothing when, and only when, an upstream call of its own, made
    without a timeout, stays silent; a failed inference call that ends gets
    500 and one fixed body. *)
Theorem C4_failure_taxonomy :
  (forall env req net msg c1 d1 token o,
     get_prop (req_body req) (lit "message") = Normal msg ->
     truthy msg = true ->
     conversion_throws msg = false ->
     truthy (env_value (env_IBM_API_KEY env)) = true ->
     truthy (env_value (env_PROJECT_ID env)) = true ->
     net (Server.iam_request env) = Responded c1 d1 ->
     validateStatus c1 = true ->
     get_prop d1 (lit "access_token") = Normal token ->
     conversion_throws token = false ->
     net (Server.generation_request env msg token) = o ->
     Spec.failed o ->
     run (Server.api_chat env req) net
     = [Post (Server.iam_request env);
        Post (Server.generation_request env msg token);
        match o with
        | Responded code d =>
            Respond code
              (VObj [(lit "error", VStr (lit "Failed to get response from AI"));
                     (lit "details", d);
                     (lit "status", VNum (num_of_Z code))])
        | NoResponse _ | Silent =>
            Respond 500
              (VObj [(lit "error",
                      VStr (lit "Connection timeout - unable to reach IBM Watsonx.ai service"));
                     (lit "suggestion",
                      VStr (lit "Please check your internet connection and try again"))])
        | NotSent m =>
            Respond 500
              (VObj [(lit "error", VStr (lit "Failed to set up request to AI service"));
                     (lit "details", VStr m)])
        end])
  /\ (forall env req net,
        List.length (responses (run (Server.api_chat env req) net)) = 1)
  /\ (forall url env req net,
        (responses (run (Serverless.handler_with url env req) net) = []
         /\ exists r, In r (posts (run (Serverless.handler_with url env req) net))
                      /\ net r = Silent /\ timeout (config r) = None)
        \/ (List.length (responses (run (Serverless.handler_with url env req) net)) = 1
            /\ forall r, In r (posts (run (Serverless.handler_with url env req) net)) ->
                         net r <> Silent))
  /\ (forall url env req net msg c1 d1 token o,
        method req = lit "POST" ->
        get_prop (req_body req) (lit "message") = Normal msg ->
        truthy msg = true ->
        net (Serverless.iam_request env) = Responded c1 d1 ->
        validateStatus c1 = true ->
        get_prop d1 (lit "access_token") = Normal token ->
        conversion_throws token = false ->
        net (Serverless.scoring_request url env msg token) = o ->
        Spec.failed o ->
        run (Serverless.handler_with url env req) net
        = Post (Serverless.iam_request env)
          :: Post (Serverless.scoring_request url env msg token)
          :: match o with
             | Responded _ _ | NoResponse _ | NotSent _ =>
                 [Respond 500
                    (VObj [(lit "error",
                            VStr (lit "An internal server error occurred."))])]
             | Silent => []
             end).
Proof.
  split; [|split; [|split]].
  - intros env req net msg c1 d1 token o Hm Ht Hc Hk Hp Hn Hv Htok Hct Ho Hf.
    rewrite (server_after_inference env req net msg Hm Ht Hk Hp c1 d1 token
               Hn Hv Htok Hc Hct), Ho.
    destruct o as [code d|m|m|]; cbn in Hf; [rewrite Hf|..]; reflexivity.
  - intros env req net. apply server_responds_once.
  - intros url env req net. apply serverless_responds_unless_silent.
  - intros url env req net msg c1 d1 token o Hpost Hm Ht Hn Hv Htok Hct Ho Hf.
    rewrite (serverless_after_inference url env req net msg Hpost Hm Ht
               c1 d1 token Hn Hv Htok Hct), Ho.
    destruct o as [code d|m|m|]; cbn in Hf; [rewrite Hf|..]; reflexivity.
Qed.

Lemma C4_witness :
  run (Server.api_chat Scenario.configured (Scenario.post Scenario.hi))
    (Scenario.answering (Responded 200 Scenario.token_data)
       (Responded 503 Scenario.overloaded))
  = [Post (Server.iam_request Scenario.configured);
     Post (Server.generation_request Scenario.configured Scenario.hi
             (VStr (lit "T")));
     Respond 503
       (VObj [(lit "error", VStr (lit "Failed to get response from AI"));
              (lit "details", VObj [(lit "error", VStr (lit "overloaded"))]);
              (lit "status", VNum (num_of_Z 503))])].
Proof.
  exact (proj1 C4_failure_taxonomy Scenario.configured
           (Scenario.post Scenario.hi)
           (Scenario.answering (Responded 200 Scenario.token_data)
              (Responded 503 Scenario.overloaded))
           Scenario.hi 200%Z Scenario.token_data (VStr (lit "T"))
           (Responded 503 Scenario.overloaded)
           eq_refl eq_refl eq_refl eq_refl eq_refl eq_refl eq_refl eq_refl
           eq_refl eq_refl eq_refl).
Defined.

(** C4 as stated fails, twice.  The ES-module function answers an upstream
    503 with 500 and a body that has no field for the upstream detail; and
    when the inference service stays silent it sends no response at all. *)
Lemma C4_counterexample :
  Spec.failed (Responded 503 Scenario.overloaded)
  /\ responses (run (ApiChat.handler Scenario.configured (Scenario.post Scenario.hi))
                  (Scenario.answering (Responded 200 Scenario.token_data)
                     (Responded 503 Scenario.overloaded)))
     = [(500%Z, VObj [(lit "error", VStr (lit "An internal server error occurred."))])]
  /\ get_prop (VObj [(lit "error", VStr (lit "An internal server error occurred."))])
       (lit "details") = Normal VUndefined
  /\ responses (run (ApiChat.handler Scenario.configured (Scenario.post Scenario.hi))
                  (Scenario.answering (Responded 200 Scenario.token_data) Silent))
     = [].
Proof.
  split; [reflexivity|]. split; [vm_compute; reflexivity|].
  split; vm_compute; reflexivity.
Qed.

(** C5 (amended): when the token exchange of the Express route fails, the
    route answers once, with the identity service's own status if it
    answered and with 500 if it did not, and the inference call is not in
    the trace. *)
Theorem C5_token_exchange_failure (env : environment) (req : http_request)
    (net : network) (msg : value) (o : net_outcome) :
  get_prop (req_body req) (lit "message") = Normal msg ->
  truthy msg = true ->
  truthy (env_value (env_IBM_API_KEY env)) = true ->
  truthy (env_value (env_PROJECT_ID env)) = true ->
  net (Server.iam_request env) = o ->
  Spec.failed o ->
  run (Server.api_chat env req) net
  = [Post (Server.iam_request env);
     match o with
     | Responded code d =>
         Respond code (Server.upstream_failure {| status := code; data := d |})
     | NoResponse _ | Silent => Respond 500 Server.connection_timeout
     | NotSent m => Respond 500 (Server.setup_failure m)
     end]
  /\ posts (run (Server.api_chat env req) net) = [Server.iam_request env].
Proof.
  intros Hm Ht Hk Hp Hn Hf.
  rewrite (server_token_exchange_failed env req net msg Hm Ht Hk Hp o Hn Hf).
  split; [reflexivity|]. destruct o; reflexivity.
Qed.

Lemma C5_witness :
  run (Server.api_chat Scenario.configured (Scenario.post Scenario.hi))
    (Scenario.answering (NoResponse (lit "timeout of 15000ms exceeded"))
       (Responded 200 VNull))
  = [Post (Server.iam_request Scenario.configured);
     Respond 500 Server.connection_timeout].
Proof.
  exact (proj1 (C5_token_exchange_failure Scenario.configured
                  (Scenario.post Scenario.hi)
                  (Scenario.answering (NoResponse (lit "timeout of 15000ms exceeded"))
                     (Responded 200 VNull))
                  Scenario.hi (NoResponse (lit "timeout of 15000ms exceeded"))
                  eq_refl eq_refl eq_refl eq_refl eq_refl I)).
Defined.

(** C5 as stated fails: the identity service answers 401 and the Express
    route answers 401, not 500. *)
Lemma C5_counterexample :
  Spec.failed (Responded 401 Scenario.unauthorized)
  /\ responses (run (Server.api_chat Scenario.configured (Scenario.post Scenario.hi))
                  (Scenario.answering (Responded 401 Scenario.unauthorized)
                     (Responded 200 VNull)))
     = [(401%Z, Server.upstream_failure
                  {| status := 401; data := Scenario.unauthorized |})].
Proof. split; [reflexivity | vm_compute; reflexivity]. Qed.

(** C6 (amended): in the Express route a truthy message with the API key
    absent (or empty) gets 500 with the body
    [{ error: "Server configuration error: API key missing" }], and with the
    key present and the project id absent (or empty) 500 with the body that
    names the project id; nothing else happens, so no call is made.  The
    serverless functions have no such check and start the token exchange. *)
Theorem C6_configuration_check (env : environment) (req : http_request)
    (net : network) (msg : value) :
  get_prop (req_body req) (lit "message") = Normal msg ->
  truthy msg = true ->
  (truthy (env_value (env_IBM_API_KEY env)) = false ->
   run (Server.api_chat env req) net
   = [Respond 500
        (VObj [(lit "error",
                VStr (lit "Server configuration error: API key missing"))])])
  /\ (truthy (env_value (env_IBM_API_KEY env)) = true ->
      truthy (env_value (env_PROJECT_ID env)) = false ->
      run (Server.api_chat env req) net
      = [Respond 500
           (VObj [(lit "error",
                   VStr (lit "Server configuration error: Project ID missing. Please add PROJECT_ID to your .env file"))])])
  /\ (method req = lit "POST" ->
      (exists rest, run (ApiChat.handler env req) net
                    = Post (Serverless.iam_request env) :: rest)
      /\ (exists rest, run (ApiChatCjs.handler env req) net
                       = Post (Serverless.iam_request env) :: rest)).
Proof.
  intros Hm Ht. split; [|split].
  - intros Hk. exact (server_api_key_missing env req net msg Hm Ht Hk).
  - intros Hk Hp. exact (server_project_id_missing env req net msg Hm Ht Hk Hp).
  - intros Hp. unfold ApiChat.handler, ApiChatCjs.handler.
    split; exact (serverless_starts_token_exchange _ env req net msg Hp Hm Ht).
Qed.

Lemma C6_witness :
  run (Server.api_chat Scenario.no_api_key (Scenario.post Scenario.hi))
    (Scenario.healthy VNull)
  = [Respond 500
       (VObj [(lit "error",
               VStr (lit "Server configuration error: API key missing"))])].
Proof.
  exact (proj1 (C6_configuration_check Scenario.no_api_key
                  (Scenario.post Scenario.hi) (Scenario.healthy VNull)
                  Scenario.hi eq_refl eq_refl)
           eq_refl).
Defined.

(** C6 as stated fails: the ES-module function, run without an API key,
    performs the token exchange and the inference call and answers 200. *)
Lemma C6_counterexample :
  env_IBM_API_KEY Scenario.no_api_key = None
  /\ run (ApiChat.handler Scenario.no_api_key (Scenario.post Scenario.hi))
       (Scenario.healthy (Scenario.generated (lit "hello")))
     = [Post (Serverless.iam_request Scenario.no_api_key);
        Post (Serverless.scoring_request ApiChat.SCORING_URL Scenario.no_api_key
                Scenario.hi (VStr (lit "T")));
        Respond 200 (Scenario.generated (lit "hello"))].
Proof. split; [reflexivity | vm_compute; reflexivity]. Qed.

(** C7: a request whose method is not POST gets 405 from both serverless
    functions, and the trace holds nothing but that response, so neither the
    token exchange nor the inference call is attempted. *)
Theorem C7_non_post_is_405 (env : environment) (req : http_request)
    (net : network) :
  method req <> lit "POST" ->
  run (ApiChat.handler env req) net = [Respond 405 Serverless.method_not_allowed]
  /\ run (ApiChatCjs.handler env req) net
     = [Respond 405 Serverless.method_not_allowed]
  /\ posts (run (ApiChat.handler env req) net) = []
  /\ posts (run (ApiChatCjs.handler env req) net) = [].
Proof.
  intros H. unfold ApiChat.handler, ApiChatCjs.handler.
  rewrite (serverless_wrong_method ApiChat.SCORING_URL env req net H).
  rewrite (serverless_wrong_method ApiChatCjs.SCORING_URL env req net H).
  repeat split.
Qed.

Lemma C7_witness :
  run (ApiChat.handler Scenario.configured Scenario.get) (Scenario.healthy VNull)
  = [Respond 405 Serverless.method_not_allowed].
Proof.
  refine (proj1 (C7_non_post_is_405 Scenario.configured Scenario.get
                   (Scenario.healthy VNull) _)).
  discriminate.
Defined.

(** C8: two requests with the same message, each served by an upstream that
    hands out the same token and the same inference result, are each
    answered exactly once and with the same status and body, and leave the
    same trace; statuses and other fields of the upstream answers may differ
    between the two runs.  Where the request is well formed and the
    normalizer reads the result, both answers are 200 with the envelope
    whose content is the text read from the result (the fallback if that is
    empty); a serverless function answers both times 200 with the result
    itself. *)
Theorem C8_same_inputs_same_response (env : environment)
    (req1 req2 : http_request) (net1 net2 : network) (msg token aiData : value) :
  get_prop (req_body req1) (lit "message") = Normal msg ->
  get_prop (req_body req2) (lit "message") = Normal msg ->
  (Spec.gives_token net1 (Server.iam_request env) token ->
   Spec.gives_token net2 (Server.iam_request env) token ->
   Spec.gives_result net1 (Server.generation_request env msg token) aiData ->
   Spec.gives_result net2 (Server.generation_request env msg token) aiData ->
   run (Server.api_chat env req1) net1 = run (Server.api_chat env req2) net2
   /\ (exists code json,
         responses (run (Server.api_chat env req1) net1) = [(code, json)]
         /\ responses (run (Server.api_chat env req2) net2) = [(code, json)])
   /\ (forall text,
         truthy msg = true ->
         truthy (env_value (env_IBM_API_KEY env)) = true ->
         truthy (env_value (env_PROJECT_ID env)) = true ->
         conversion_throws msg = false ->
         conversion_throws token = false ->
         Server.responseText aiData = Normal text ->
         forall req net,
           (req = req1 /\ net = net1) \/ (req = req2 /\ net = net2) ->
           responses (run (Server.api_chat env req) net)
           = [(200%Z,
               VObj [(lit "choices",
                      VArr [VObj [(lit "index", VNum (num_of_Z 0));
                                  (lit "message",
                                   VObj [(lit "content",
                                          VStr match text with
                                               | [] => lit "I'm sorry, I couldn't generate a response. Please try again."
                                               | _ :: _ => text
                                               end);
                                         (lit "role", VStr (lit "assistant"))])]])])]))
  /\ (forall url,
        method req1 = method req2 ->
        Spec.gives_token net1 (Serverless.iam_request env) token ->
        Spec.gives_token net2 (Serverless.iam_request env) token ->
        Spec.gives_result net1 (Serverless.scoring_request url env msg token) aiData ->
        Spec.gives_result net2 (Serverless.scoring_request url env msg token) aiData ->
        run (Serverless.handler_with url env req1) net1
        = run (Serverless.handler_with url env req2) net2
        /\ (exists code json,
              responses (run (Serverless.handler_with url env req1) net1)
              = [(code, json)]
              /\ responses (run (Serverless.handler_with url env req2) net2)
                 = [(code, json)])
        /\ (method req1 = lit "POST" ->
            truthy msg = true ->
            conversion_throws token = false ->
            responses (run (Serverless.handler_with url env req1) net1)
            = [(200%Z, aiData)]
            /\ responses (run (Serverless.handler_with url env req2) net2)
               = [(200%Z, aiData)])).
Proof.
  intros Hm1 Hm2. split.
  - intros (c1 & d1 & Hn1 & Hv1 & Htok1) (c1' & d1' & Hn2 & Hv2 & Htok2)
           (c2 & Hg1 & Hgv1) (c2' & Hg2 & Hgv2).
    assert (Hsame : run (Server.api_chat env req1) net1
                    = run (Server.api_chat env req2) net2).
    { destruct (truthy msg) eqn:Ht.
      2:{ rewrite (server_falsy_message env req1 net1 msg Hm1 Ht),
                  (server_falsy_message env req2 net2 msg Hm2 Ht). reflexivity. }
      destruct (truthy (env_value (env_IBM_API_KEY env))) eqn:Hk.
      2:{ rewrite (server_api_key_missing env req1 net1 msg Hm1 Ht Hk),
                  (server_api_key_missing env req2 net2 msg Hm2 Ht Hk). reflexivity. }
      destruct (truthy (env_value (env_PROJECT_ID env))) eqn:Hp.
      2:{ rewrite (server_project_id_missing env req1 net1 msg Hm1 Ht Hk Hp),
                  (server_project_id_missing env req2 net2 msg Hm2 Ht Hk Hp).
          reflexivity. }
      destruct (conversion_throws msg) eqn:Hc.
      { rewrite (server_conversion_throws env req1 net1 msg Hm1 Ht Hk Hp
                   c1 d1 token Hn1 Hv1 Htok1 (or_introl Hc)),
                (server_conversion_throws env req2 net2 msg Hm2 Ht Hk Hp
                   c1' d1' token Hn2 Hv2 Htok2 (or_introl Hc)). reflexivity. }
      destruct (conversion_throws token) eqn:Hct.
      { rewrite (server_conversion_throws env req1 net1 msg Hm1 Ht Hk Hp
                   c1 d1 token Hn1 Hv1 Htok1 (or_intror Hct)),
                (server_conversion_throws env req2 net2 msg Hm2 Ht Hk Hp
                   c1' d1' token Hn2 Hv2 Htok2 (or_intror Hct)). reflexivity. }
      rewrite (server_after_inference env req1 net1 msg Hm1 Ht Hk Hp
                 c1 d1 token Hn1 Hv1 Htok1 Hc Hct),
              (server_after_inference env req2 net2 msg Hm2 Ht Hk Hp
                 c1' d1' token Hn2 Hv2 Htok2 Hc Hct).
      rewrite Hg1, Hg2, Hgv1, Hgv2. reflexivity. }
    split; [exact Hsame|]. split.
    + rewrite <- Hsame.
      pose proof (server_responds_once env req1 net1) as Hone.
      destruct (responses (run (Server.api_chat env req1) net1))
        as [|[code json] [|? ?]]; try discriminate Hone.
      exists code, json. split; reflexivity.
    + intros text Ht Hk Hp Hc Hct Hr req net [[-> ->]|[-> ->]].
      * rewrite (server_after_inference env req1 net1 msg Hm1 Ht Hk Hp
                   c1 d1 token Hn1 Hv1 Htok1 Hc Hct).
        rewrite Hg1, Hgv1, Hr. unfold Server.formattedResponse.
        rewrite content_string. reflexivity.
      * rewrite (server_after_inference env req2 net2 msg Hm2 Ht Hk Hp
                   c1' d1' token Hn2 Hv2 Htok2 Hc Hct).
        rewrite Hg2, Hgv2, Hr. unfold Server.formattedResponse.
        rewrite content_string. reflexivity.
  - intros url Hmeth (c1 & d1 & Hn1 & Hv1 & Htok1) (c1' & d1' & Hn2 & Hv2 & Htok2)
           (c2 & Hg1 & Hgv1) (c2' & Hg2 & Hgv2).
    destruct (str_eqb (method req1) (lit "POST")) eqn:Hpost.
    2:{ assert (H1 : method req1 <> lit "POST").
        { intros E. rewrite E, str_eqb_refl in Hpost. discriminate. }
        assert (H2 : method req2 <> lit "POST") by (rewrite <- Hmeth; exact H1).
        rewrite (serverless_wrong_method url env req1 net1 H1),
                (serverless_wrong_method url env req2 net2 H2).
        split; [reflexivity|].
        split; [eexists; eexists; split; reflexivity|].
        intros E. contradiction. }
    apply str_eqb_eq in Hpost.
    assert (Hpost2 : method req2 = lit "POST") by (rewrite <- Hmeth; exact Hpost).
    destruct (truthy msg) eqn:Ht.
    2:{ rewrite (serverless_falsy_message url env req1 net1 msg Hpost Hm1 Ht),
                (serverless_falsy_message url env req2 net2 msg Hpost2 Hm2 Ht).
        split; [reflexivity|].
        split; [eexists; eexists; split; reflexivity|].
        intros _ E. discriminate E. }
    destruct (conversion_throws token) eqn:Hct.
    { rewrite (serverless_conversion_throws url env req1 net1 msg Hpost Hm1 Ht
                 c1 d1 token Hn1 Hv1 Htok1 Hct),
              (serverless_conversion_throws url env req2 net2 msg Hpost2 Hm2 Ht
                 c1' d1' token Hn2 Hv2 Htok2 Hct).
      split; [reflexivity|].
      split; [eexists; eexists; split; reflexivity|].
      intros _ _ E. discriminate E. }
    rewrite (serverless_after_inference url env req1 net1 msg Hpost Hm1 Ht
               c1 d1 token Hn1 Hv1 Htok1 Hct),
            (serverless_after_inference url env req2 net2 msg Hpost2 Hm2 Ht
               c1' d1' token Hn2 Hv2 Htok2 Hct).
    rewrite Hg1, Hg2, Hgv1, Hgv2.
    split; [reflexivity|].
    split; [eexists; eexists; split; reflexivity|].
    intros _ _ _. split; reflexivity.
Qed.

(** The same question asked twice of an upstream that answers 200 the first
    time and 201 and 202 the second: twice the same answer, 200 with the
    envelope of the generated text. *)
Lemma C8_witness :
  responses (run (Server.api_chat Scenario.configured (Scenario.post Scenario.hi))
               (Scenario.healthy (Scenario.generated (lit "hello"))))
  = [(200%Z,
      VObj [(lit "choices",
             VArr [VObj [(lit "index", VNum (num_of_Z 0));
                         (lit "message",
                          VObj [(lit "content", VStr (lit "hello"));
                                (lit "role", VStr (lit "assistant"))])]])])]
  /\ responses (run (Server.api_chat Scenario.configured (Scenario.post Scenario.hi))
                  (Scenario.healthy_again (Scenario.generated (lit "hello"))))
     = [(200%Z,
         VObj [(lit "choices",
                VArr [VObj [(lit "index", VNum (num_of_Z 0));
                            (lit "message",
                             VObj [(lit "content", VStr (lit "hello"));
                                   (lit "role", VStr (lit "assistant"))])]])])].
Proof.
  assert (Hg1 : Spec.gives_token (Scenario.healthy (Scenario.generated (lit "hello")))
                  (Server.iam_request Scenario.configured) (VStr (lit "T"))).
  { exists 200%Z, Scenario.token_data. repeat split. }
  assert (Hg2 : Spec.gives_token
                  (Scenario.healthy_again (Scenario.generated (lit "hello")))
                  (Server.iam_request Scenario.configured) (VStr (lit "T"))).
  { exists 201%Z, (VObj [(lit "expires_in", VNum (num_of_Z 3600));
                         (lit "access_token", VStr (lit "T"))]).
    repeat split. }
  assert (Hr1 : Spec.gives_result (Scenario.healthy (Scenario.generated (lit "hello")))
                  (Server.generation_request Scenario.configured Scenario.hi
                     (VStr (lit "T")))
                  (Scenario.generated (lit "hello"))).
  { exists 200%Z. repeat split. }
  assert (Hr2 : Spec.gives_result
                  (Scenario.healthy_again (Scenario.generated (lit "hello")))
                  (Server.generation_request Scenario.configured Scenario.hi
                     (VStr (lit "T")))
                  (Scenario.generated (lit "hello"))).
  { exists 202%Z. repeat split. }
  pose proof (proj2 (proj2 (proj1 (C8_same_inputs_same_response Scenario.configured
                   (Scenario.post Scenario.hi) (Scenario.post Scenario.hi)
                   (Scenario.healthy (Scenario.generated (lit "hello")))
                   (Scenario.healthy_again (Scenario.generated (lit "hello")))
                   Scenario.hi (VStr (lit "T")) (Scenario.generated (lit "hello"))
                   eq_refl eq_refl) Hg1 Hg2 Hr1 Hr2))
                (lit "hello") eq_refl eq_refl eq_refl eq_refl eq_refl eq_refl) as H.
  split.
  - exact (H _ _ (or_introl (conj eq_refl eq_refl))).
  - exact (H _ _ (or_intror (conj eq_refl eq_refl))).
Defined.

(** C9 (the code falls short of it): an upstream 2xx body whose first
    result has no [generated_text], [{ results: [{}] }], is not answered
    with the fallback content.  The route reads [undefined.replace], the
    [TypeError] lands in its [catch], and the answer is 500.  The routes
    [/api/chat-v2] and [/api/chat-v3] read the same field through
    [results?.[0]?.generated_text || ...] and answer the same body with 200
    and their fallback text. *)
Theorem C9_missing_generated_text :
  Server.responseText (VObj [(lit "results", VArr [VObj []])])
  = Throw (TypeError (lit "Cannot read properties of undefined (reading 'replace')"))
  /\ run (Server.api_chat Scenario.configured (Scenario.post Scenario.hi))
       (Scenario.healthy (VObj [(lit "results", VArr [VObj []])]))
     = [Post (Server.iam_request Scenario.configured);
        Post (Server.generation_request Scenario.configured Scenario.hi
                (VStr (lit "T")));
        Respond 500
          (VObj [(lit "error", VStr (lit "Failed to set up request to AI service"));
                 (lit "details",
                  VStr (lit "Cannot read properties of undefined (reading 'replace')"))])]
  /\ responses (run (Routes.chat_v2 Scenario.configured (Scenario.post Scenario.hi))
                  (Scenario.healthy (VObj [(lit "results", VArr [VObj []])])))
     = [(200%Z,
         VObj [(lit "choices",
                VArr [VObj [(lit "index", VNum (num_of_Z 0));
                            (lit "message",
                             VObj [(lit "content",
                                    VStr (lit "I'm having trouble generating a response."));
                                   (lit "role", VStr (lit "assistant"))])]])])].
Proof. split; [|split]; vm_compute; reflexivity. Qed.

(** C10: the check [!userMessage] is a truthiness test.  Every falsy message
    is answered 400 with no outbound call; a truthy message of any type
    passes it: the Express route goes on to its configuration check and the
    token exchange, and a serverless function puts the value itself, not a
    string made from it, into the payload of the inference call. *)
Theorem C10_validation_is_truthiness (env : environment) (req : http_request)
    (net : network) (msg : value) :
  get_prop (req_body req) (lit "message") = Normal msg ->
  (truthy msg = false ->
   run (Server.api_chat env req) net = [Respond 400 Server.empty_message]
   /\ (method req = lit "POST" ->
       run (ApiChat.handler env req) net = [Respond 400 Serverless.empty_message]
       /\ run (ApiChatCjs.handler env req) net
          = [Respond 400 Serverless.empty_message]))
  /\ (truthy msg = true ->
      (truthy (env_value (env_IBM_API_KEY env)) = true ->
       truthy (env_value (env_PROJECT_ID env)) = true ->
       exists rest,
         run (Server.api_chat env req) net = Post (Server.iam_request env) :: rest)
      /\ (method req = lit "POST" ->
          forall c1 d1 token,
            net (Serverless.iam_request env) = Responded c1 d1 ->
            validateStatus c1 = true ->
            get_prop d1 (lit "access_token") = Normal token ->
            conversion_throws token = false ->
            posts (run (ApiChat.handler env req) net)
            = [Serverless.iam_request env;
               Serverless.scoring_request ApiChat.SCORING_URL env msg token]
            /\ posts (run (ApiChatCjs.handler env req) net)
               = [Serverless.iam_request env;
                  Serverless.scoring_request ApiChatCjs.SCORING_URL env msg token]
            /\ forall url,
                 body (Serverless.scoring_request url env msg token)
                 = PObj [(lit "project_id", PVal (env_value (env_PROJECT_ID env)));
                         (lit "messages",
                          PArr [PObj [(lit "content", PVal msg);
                                      (lit "role", PVal (VStr (lit "user")))]])]))
  /\ (truthy VUndefined = false /\ truthy (VStr []) = false
      /\ truthy (VNum (num_of_Z 0)) = false /\ truthy (VBool false) = false
      /\ truthy VNull = false)
  /\ (forall z, z <> 0%Z -> truthy (VNum (num_of_Z z)) = true)
  /\ (forall props, truthy (VObj props) = true)
  /\ (forall elems, truthy (VArr elems) = true).
Proof.
  intros Hm. split; [|split; [|split; [|split; [|split]]]].
  - intros Ht. split.
    + exact (server_falsy_message env req net msg Hm Ht).
    + intros Hp. unfold ApiChat.handler, ApiChatCjs.handler.
      split; exact (serverless_falsy_message _ env req net msg Hp Hm Ht).
  - intros Ht. split.
    + intros Hk Hp. exact (server_starts_token_exchange env req net msg Hm Ht Hk Hp).
    + intros Hp c1 d1 token Hn Hv Htok Hct.
      unfold ApiChat.handler, ApiChatCjs.handler.
      rewrite (serverless_after_inference ApiChat.SCORING_URL env req net msg
                 Hp Hm Ht c1 d1 token Hn Hv Htok Hct).
      rewrite (serverless_after_inference ApiChatCjs.SCORING_URL env req net msg
                 Hp Hm Ht c1 d1 token Hn Hv Htok Hct).
      cbn [posts flat_map app].
      repeat split; all_cases; reflexivity.
  - repeat split.
  - intros [|p|p] Hz; [contradiction| reflexivity | reflexivity].
  - reflexivity.
  - reflexivity.
Qed.

(** A message that is the number 5 reaches the inference payload as the
    number 5. *)
Lemma C10_witness :
  posts (run (ApiChat.handler Scenario.configured
                (Scenario.post (VNum (num_of_Z 5))))
           (Scenario.healthy (Scenario.generated (lit "hello"))))
  = [Serverless.iam_request Scenario.configured;
     Serverless.scoring_request ApiChat.SCORING_URL Scenario.configured
       (VNum (num_of_Z 5)) (VStr (lit "T"))].
Proof.
  refine (proj1 (proj2 (proj1 (proj2
            (C10_validation_is_truthiness Scenario.configured
               (Scenario.post (VNum (num_of_Z 5)))
               (Scenario.healthy (Scenario.generated (lit "hello")))
               (VNum (num_of_Z 5)) eq_refl)) eq_refl)
            eq_refl 200%Z Scenario.token_data (VStr (lit "T"))
            eq_refl eq_refl eq_refl eq_refl)).
Defined.

(** ** Beyond the claims

    The routes and the page script that the claims leave out. *)

(** Unfolding of one of the other routes down to the events it appends. *)
Ltac run_route :=
  unfold run, Routes.chat_v2, Routes.chat_v3, Routes.alternative,
    Routes.test_connection, Routes.health, Server.getIAMToken,
    try_catch, bind, lift, throw, ret, res_status_json, res_json, emit,
    axios_post.

Section AlternativeRoutes.

Variables (model_id failure_text : jsstr) (env : environment)
          (req : http_request) (net : network) (msg : value).

Lemma alternative_responds_once :
  exists code json,
    responses (run (Routes.alternative model_id failure_text env req) net)
    = [(code, json)]
    /\ (code = 200%Z \/ code = 500%Z).
Proof.
  run_route. all_cases; eexists; eexists; (split; [reflexivity|]); auto.
Qed.

Hypothesis Hmessage : get_prop (req_body req) (lit "message") = Normal msg.

Lemma alternative_starts_token_exchange :
  exists rest,
    run (Routes.alternative model_id failure_text env req) net
    = Post (Server.iam_request env) :: rest.
Proof.
  run_route. rewrite Hmessage. rewrite server_iam_template.
  fold (Server.iam_request env). all_cases; eexists; reflexivity.
Qed.

Variables (c1 : Z) (d1 token : value).
Hypothesis Hiam : net (Server.iam_request env) = Responded c1 d1.
Hypothesis Hstatus : validateStatus c1 = true.
Hypothesis Htoken : get_prop d1 (lit "access_token") = Normal token.
Hypothesis Hmsg_string : conversion_throws msg = false.
Hypothesis Htoken_string : conversion_throws token = false.

Lemma alt_input_template :
  template_literal (Routes.alt_input msg) = Normal (Routes.alt_input msg).
Proof.
  apply template_literal_ok. unfold Routes.alt_input.
  cbn [existsb substitution_throws]. rewrite Hmsg_string. reflexivity.
Qed.

Lemma alternative_after_inference :
  run (Routes.alternative model_id failure_text env req) net
  = [Post (Server.iam_request env);
     Post (Routes.alt_request model_id env msg token);
     match net (Routes.alt_request model_id env msg token) with
     | Responded code d =>
         if validateStatus code then
           match Routes.alt_responseText d with
           | Normal text => Respond 200 (Server.envelope text)
           | Throw e => Respond 500 (Routes.alt_failure failure_text e)
           end
         else Respond 500
                (VObj [(lit "error", VStr failure_text);
                       (lit "details",
                        or_else d (VStr (lit "Request failed with status code "
                                         ++ decimal code)))])
     | NoResponse m | NotSent m =>
         Respond 500 (VObj [(lit "error", VStr failure_text);
                            (lit "details", VStr m)])
     | Silent =>
         Respond 500 (VObj [(lit "error", VStr failure_text);
                            (lit "details",
                             VStr (lit "timeout of 30000ms exceeded"))])
     end].
Proof.
  run_route. rewrite Hmessage, server_iam_template.
  fold (Server.iam_request env). rewrite Hiam, Hstatus. cbn [data].
  rewrite Htoken. cbn [fst snd].
  rewrite alt_input_template, (server_bearer_template _ Htoken_string).
  fold (Routes.alt_request model_id env msg token).
  destruct (net (Routes.alt_request model_id env msg token)) as [code d|m|m|];
    [destruct (validateStatus code)|..]; cbn [data]; try reflexivity.
  destruct (Routes.alt_responseText d); reflexivity.
Qed.

End AlternativeRoutes.

(** *** The normalizer of the alternative routes *)

Lemma get_prop_total v name :
  Routes.nullish v = false -> exists r, get_prop v name = Normal r.
Proof. destruct v; cbn; try discriminate; eexists; reflexivity. Qed.

Lemma opt_index_total v i : exists r, Routes.opt_index v i = Normal r.
Proof. destruct v; cbn; eexists; reflexivity. Qed.

Lemma opt_prop_total v name : exists r, Routes.opt_prop v name = Normal r.
Proof. destruct v; cbn; eexists; reflexivity. Qed.

Lemma or_else_truthy x y : truthy y = true -> truthy (or_else x y) = true.
Proof. intros H. unfold or_else. destruct (truthy x) eqn:E; assumption. Qed.

Lemma alt_responseText_total aiData :
  Routes.nullish aiData = false ->
  exists text, Routes.alt_responseText aiData = Normal text /\ truthy text = true.
Proof.
  intros Hn. unfold Routes.alt_responseText.
  destruct (get_prop_total aiData (lit "results") Hn) as [r ->]. cbn [and_then].
  destruct (opt_index_total r 0) as [f ->]. cbn [and_then].
  destruct (opt_prop_total f (lit "generated_text")) as [g ->]. cbn [and_then].
  eexists. split; [reflexivity|]. apply or_else_truthy. reflexivity.
Qed.

Lemma alt_responseText_generated aiData first rest g :
  get_prop aiData (lit "results") = Normal (VArr (first :: rest)) ->
  get_prop first (lit "generated_text") = Normal g ->
  truthy g = true ->
  Routes.alt_responseText aiData = Normal g.
Proof.
  intros Hr Hg Ht. unfold Routes.alt_responseText. rewrite Hr.
  cbn [and_then Routes.opt_index Routes.nullish get_index nth].
  unfold Routes.opt_prop.
  destruct (Routes.nullish first) eqn:Hn.
  - destruct first; try discriminate Hn; discriminate Hg.
  - rewrite Hg. cbn [and_then]. unfold or_else. rewrite Ht. reflexivity.
Qed.

(** ** Beyond the claims: the other routes of [server.js] *)

(** X1: the routes [/api/chat-v2] and [/api/chat-v3] check neither the
    message nor the configuration: with any message, a missing one
    included, and any environment they begin with the token exchange. *)
Theorem X1_alternatives_check_nothing (env : environment) (req : http_request)
    (net : network) (msg : value) :
  get_prop (req_body req) (lit "message") = Normal msg ->
  (exists rest,
     run (Routes.chat_v2 env req) net = Post (Server.iam_request env) :: rest)
  /\ (exists rest,
        run (Routes.chat_v3 env req) net = Post (Server.iam_request env) :: rest).
Proof.
  intros Hm. unfold Routes.chat_v2, Routes.chat_v3.
  split; exact (alternative_starts_token_exchange _ _ env req net msg Hm).
Qed.

(** No message, no API key: the call to the identity service is made. *)
Lemma X1_witness :
  exists rest,
    run (Routes.chat_v2 Scenario.no_api_key
           {| method := lit "POST"; req_body := VObj [] |})
      (Scenario.healthy VNull)
    = Post (Server.iam_request Scenario.no_api_key) :: rest.
Proof.
  exact (proj1 (X1_alternatives_check_nothing Scenario.no_api_key
                  {| method := lit "POST"; req_body := VObj [] |}
                  (Scenario.healthy VNull) VUndefined eq_refl)).
Defined.

(** X2: an alternative route reads every 2xx inference body other than
    [null] and [undefined] and answers 200 with the envelope.  The content
    is [results?.[0]?.generated_text] where that is truthy and the text
    [I'm having trouble generating a response.] otherwise; a body such as
    [{results:[{}]}], on which the primary route ends in 500, gets that
    text here. *)
Theorem X2_alternative_reads_any_body (model_id failure_text : jsstr)
    (env : environment) (req : http_request) (net : network)
    (msg : value) (c1 : Z) (d1 token : value) (c2 : Z) (aiData : value) :
  get_prop (req_body req) (lit "message") = Normal msg ->
  net (Server.iam_request env) = Responded c1 d1 ->
  validateStatus c1 = true ->
  get_prop d1 (lit "access_token") = Normal token ->
  conversion_throws msg = false ->
  conversion_throws token = false ->
  net (Routes.alt_request model_id env msg token) = Responded c2 aiData ->
  validateStatus c2 = true ->
  (Routes.nullish aiData = false ->
   exists results first g,
     get_prop aiData (lit "results") = Normal results
     /\ Routes.opt_index results 0 = Normal first
     /\ Routes.opt_prop first (lit "generated_text") = Normal g)
  /\ (forall results first g,
        get_prop aiData (lit "results") = Normal results ->
        Routes.opt_index results 0 = Normal first ->
        Routes.opt_prop first (lit "generated_text") = Normal g ->
        run (Routes.alternative model_id failure_text env req) net
        = [Post (Server.iam_request env);
           Post (Routes.alt_request model_id env msg token);
           Respond 200
             (VObj [(lit "choices",
                     VArr [VObj [(lit "index", VNum (num_of_Z 0));
                                 (lit "message",
                                  VObj [(lit "content",
                                         if truthy g then g
                                         else VStr (lit "I'm having trouble generating a response."));
                                        (lit "role", VStr (lit "assistant"))])]])])]).
Proof.
  intros Hm Hn Hv Htok Hc Hct Hg Hgv. split.
  - intros Hnull.
    destruct (get_prop_total aiData (lit "results") Hnull) as [results Hr].
    destruct (opt_index_total results 0) as [first Hf].
    destruct (opt_prop_total first (lit "generated_text")) as [g Hgen].
    exists results, first, g. repeat split; assumption.
  - intros results first g Hr Hf Hgen.
    rewrite (alternative_after_inference model_id failure_text env req net msg Hm
               c1 d1 token Hn Hv Htok Hc Hct).
    rewrite Hg, Hgv. unfold Routes.alt_responseText.
    rewrite Hr. cbn [and_then]. rewrite Hf. cbn [and_then]. rewrite Hgen.
    reflexivity.
Qed.

(** A first result without text: 200 with the fallback text. *)
Lemma X2_witness :
  run (Routes.chat_v2 Scenario.configured (Scenario.post Scenario.hi))
    (Scenario.healthy (VObj [(lit "results", VArr [VObj []])]))
  = [Post (Server.iam_request Scenario.configured);
     Post (Routes.alt_request Routes.llama Scenario.configured Scenario.hi
             (VStr (lit "T")));
     Respond 200
       (VObj [(lit "choices",
               VArr [VObj [(lit "index", VNum (num_of_Z 0));
                           (lit "message",
                            VObj [(lit "content",
                                   VStr (lit "I'm having trouble generating a response."));
                                  (lit "role", VStr (lit "assistant"))])]])])].
Proof.
  exact (proj2 (X2_alternative_reads_any_body Routes.llama
                  (lit "Both primary and alternative endpoints failed")
                  Scenario.configured (Scenario.post Scenario.hi)
                  (Scenario.healthy (VObj [(lit "results", VArr [VObj []])]))
                  Scenario.hi 200%Z Scenario.token_data (VStr (lit "T")) 200%Z
                  (VObj [(lit "results", VArr [VObj []])])
                  eq_refl eq_refl eq_refl eq_refl eq_refl eq_refl eq_refl eq_refl)
           (VArr [VObj []]) (VObj []) VUndefined eq_refl eq_refl eq_refl).
Defined.

(** X3: an alternative route hands on a truthy [generated_text] as it is:
    neither trimmed nor cleaned of an echoed prompt, and of whatever type
    the upstream sent, it is the value at [choices[0].message.content] of
    the answer. *)
Theorem X3_alternative_content_is_raw (model_id failure_text : jsstr)
    (env : environment) (req : http_request) (net : network)
    (msg : value) (c1 : Z) (d1 token : value) (c2 : Z)
    (aiData first : value) (rest : list value) (g : value) :
  get_prop (req_body req) (lit "message") = Normal msg ->
  net (Server.iam_request env) = Responded c1 d1 ->
  validateStatus c1 = true ->
  get_prop d1 (lit "access_token") = Normal token ->
  conversion_throws msg = false ->
  conversion_throws token = false ->
  net (Routes.alt_request model_id env msg token) = Responded c2 aiData ->
  validateStatus c2 = true ->
  get_prop aiData (lit "results") = Normal (VArr (first :: rest)) ->
  get_prop first (lit "generated_text") = Normal g ->
  truthy g = true ->
  responses (run (Routes.alternative model_id failure_text env req) net)
  = [(200%Z,
      VObj [(lit "choices",
             VArr [VObj [(lit "index", VNum (num_of_Z 0));
                         (lit "message",
                          VObj [(lit "content", g);
                                (lit "role", VStr (lit "assistant"))])]])])].
Proof.
  intros Hm Hn Hv Htok Hc Hct Hg Hgv Hr Hgen Ht.
  rewrite (alternative_after_inference model_id failure_text env req net msg Hm
             c1 d1 token Hn Hv Htok Hc Hct).
  rewrite Hg, Hgv, (alt_responseText_generated aiData first rest g Hr Hgen Ht).
  reflexivity.
Qed.

(** Text with blanks around it stays as it is. *)
Lemma X3_witness :
  responses (run (Routes.chat_v3 Scenario.configured (Scenario.post Scenario.hi))
               (Scenario.healthy (Scenario.generated (lit "  hello  "))))
  = [(200%Z,
      VObj [(lit "choices",
             VArr [VObj [(lit "index", VNum (num_of_Z 0));
                         (lit "message",
                          VObj [(lit "content", VStr (lit "  hello  "));
                                (lit "role", VStr (lit "assistant"))])]])])].
Proof.
  exact (X3_alternative_content_is_raw Routes.small_granite
           (lit "All endpoints failed")
           Scenario.configured (Scenario.post Scenario.hi)
           (Scenario.healthy (Scenario.generated (lit "  hello  ")))
           Scenario.hi 200%Z Scenario.token_data (VStr (lit "T")) 200%Z
           (Scenario.generated (lit "  hello  "))
           (VObj [(lit "generated_text", VStr (lit "  hello  "))]) []
           (VStr (lit "  hello  "))
           eq_refl eq_refl eq_refl eq_refl eq_refl eq_refl eq_refl eq_refl
           eq_refl eq_refl eq_refl).
Defined.

(** X4: an alternative route answers exactly once, and with 200 or 500
    only: unlike the primary route it never hands on the status of an
    upstream service. *)
Theorem X4_alternative_status_codes (env : environment) (req : http_request)
    (net : network) :
  (exists code json,
     responses (run (Routes.chat_v2 env req) net) = [(code, json)]
     /\ (code = 200%Z \/ code = 500%Z))
  /\ (exists code json,
        responses (run (Routes.chat_v3 env req) net) = [(code, json)]
        /\ (code = 200%Z \/ code = 500%Z)).
Proof.
  unfold Routes.chat_v2, Routes.chat_v3.
  split; apply alternative_responds_once.
Qed.

(** X5: when the inference call of an alternative route fails, the answer
    is 500 and its [details] are the upstream body if that is truthy, the
    text of the error otherwise; for a silent upstream that text is the one
    of the timeout of the call, 30000 ms. *)
Theorem X5_alternative_failure_details (model_id failure_text : jsstr)
    (env : environment) (req : http_request) (net : network)
    (msg : value) (c1 : Z) (d1 token : value) (o : net_outcome) :
  get_prop (req_body req) (lit "message") = Normal msg ->
  net (Server.iam_request env) = Responded c1 d1 ->
  validateStatus c1 = true ->
  get_prop d1 (lit "access_token") = Normal token ->
  conversion_throws msg = false ->
  conversion_throws token = false ->
  net (Routes.alt_request model_id env msg token) = o ->
  Spec.failed o ->
  responses (run (Routes.alternative model_id failure_text env req) net)
  = [(500%Z,
      VObj [(lit "error", VStr failure_text);
            (lit "details",
             match o with
             | Responded code d =>
                 if truthy d then d
                 else VStr (lit "Request failed with status code " ++ decimal code)
             | NoResponse m | NotSent m => VStr m
             | Silent => VStr (lit "timeout of 30000ms exceeded")
             end)])].
Proof.
  intros Hm Hn Hv Htok Hc Hct Ho Hf.
  rewrite (alternative_after_inference model_id failure_text env req net msg Hm
             c1 d1 token Hn Hv Htok Hc Hct).
  rewrite Ho. destruct o as [code d|m|m|]; cbn in Hf; [rewrite Hf|..]; reflexivity.
Qed.

(** An upstream 503 with an empty body: the details are the axios text. *)
Lemma X5_witness :
  responses (run (Routes.chat_v2 Scenario.configured (Scenario.post Scenario.hi))
               (Scenario.answering (Responded 200 Scenario.token_data)
                  (Responded 503 (VStr []))))
  = [(500%Z,
      VObj [(lit "error", VStr (lit "Both primary and alternative endpoints failed"));
            (lit "details", VStr (lit "Request failed with status code 503"))])].
Proof.
  exact (X5_alternative_failure_details Routes.llama
           (lit "Both primary and alternative endpoints failed")
           Scenario.configured (Scenario.post Scenario.hi)
           (Scenario.answering (Responded 200 Scenario.token_data)
              (Responded 503 (VStr [])))
           Scenario.hi 200%Z Scenario.token_data (VStr (lit "T"))
           (Responded 503 (VStr []))
           eq_refl eq_refl eq_refl eq_refl eq_refl eq_refl eq_refl eq_refl).
Defined.

(** *** [getIAMToken], the connection test and the health check *)

(** X6: [getIAMToken] makes exactly one call, the one to the identity
    service, and writes no response; when that service answers outside 2xx
    the error it throws still carries the status and body of the answer,
    and when no answer comes the error carries the request only.  The call
    has a timeout of 15000 ms, so a silent service ends in that error too
    and the function never stays pending. *)
Theorem X6_getIAMToken_one_call (env : environment) (net : network) (t : trace) :
  snd (Server.getIAMToken env net t) = t ++ [Post (Server.iam_request env)]
  /\ (forall code d,
        net (Server.iam_request env) = Responded code d ->
        validateStatus code = false ->
        exists e,
          fst (Server.getIAMToken env net t) = Settled (Throw e)
          /\ response e = Some {| status := code; data := d |})
  /\ (forall m,
        net (Server.iam_request env) = NoResponse m ->
        fst (Server.getIAMToken env net t)
        = Settled (Throw {| response := None; request := true; message := m |}))
  /\ (forall code d,
        net (Server.iam_request env) = Responded code d ->
        validateStatus code = true ->
        fst (Server.getIAMToken env net t)
        = Settled (get_prop d (lit "access_token")))
  /\ (net (Server.iam_request env) = Silent ->
      fst (Server.getIAMToken env net t)
      = Settled (Throw {| response := None; request := true;
                          message := lit "timeout of 15000ms exceeded" |}))
  /\ fst (Server.getIAMToken env net t) <> Pending.
Proof.
  unfold Server.getIAMToken, try_catch, bind, lift, throw, axios_post.
  rewrite server_iam_template. fold (Server.iam_request env).
  split; [|split; [|split; [|split; [|split]]]].
  - destruct (net (Server.iam_request env)) as [code d|m|m|];
      [destruct (validateStatus code);
       [cbn [data]; destruct (get_prop d (lit "access_token"))|]|..];
      reflexivity.
  - intros code d Hn Hv. rewrite Hn, Hv. eexists. split; reflexivity.
  - intros m Hn. rewrite Hn. reflexivity.
  - intros code d Hn Hv. rewrite Hn, Hv. cbn [data].
    destruct (get_prop d (lit "access_token")); reflexivity.
  - intros Hn. rewrite Hn. reflexivity.
  - destruct (net (Server.iam_request env)) as [code d|m|m|];
      [destruct (validateStatus code);
       [cbn [data]; destruct (get_prop d (lit "access_token"))|]|..];
      discriminate.
Qed.

Lemma X6_witness :
  exists e,
    fst (Server.getIAMToken Scenario.configured
           (Scenario.answering (Responded 401 Scenario.unauthorized)
              (Responded 200 VNull)) [])
    = Settled (Throw e)
    /\ response e = Some {| status := 401; data := Scenario.unauthorized |}.
Proof.
  exact (proj1 (proj2 (X6_getIAMToken_one_call Scenario.configured
                         (Scenario.answering (Responded 401 Scenario.unauthorized)
                            (Responded 200 VNull)) []))
           401%Z Scenario.unauthorized eq_refl eq_refl).
Defined.

(** The connection test, whatever the identity service does. *)
Lemma test_connection_run env net :
  run (Routes.test_connection env) net
  = [Post (Server.iam_request env);
     match net (Server.iam_request env) with
     | Responded c d =>
         if validateStatus c then
           match get_prop d (lit "access_token") with
           | Normal token => Respond 200 (Routes.connection_ok token)
           | Throw e => Respond 500 (Routes.connection_failed e)
           end
         else Respond 500
                (Routes.connection_failed
                   {| response := Some {| status := c; data := d |};
                      request := true;
                      message := lit "Request failed with status code "
                                 ++ decimal c |})
     | NoResponse m =>
         Respond 500 (Routes.connection_failed
                        {| response := None; request := true; message := m |})
     | NotSent m =>
         Respond 500 (Routes.connection_failed
                        {| response := None; request := false; message := m |})
     | Silent =>
         Respond 500 (Routes.connection_failed
                        {| response := None; request := true;
                           message := lit "timeout of 15000ms exceeded" |})
     end].
Proof.
  run_route. rewrite server_iam_template. fold (Server.iam_request env).
  destruct (net (Server.iam_request env)) as [c d|m|m|];
    [destruct (validateStatus c);
     [cbn [data]; destruct (get_prop d (lit "access_token"))|]|..];
    reflexivity.
Qed.

(** X7: the connection test calls the identity service once and nothing
    else, whatever the configuration, and answers once, with 200 or 500.
    On a 2xx answer of that service whose body is neither [null] nor
    [undefined] it answers 200 and reports [success: true] even when the
    body holds no token: only [tokenExists] tells.  On a 2xx answer whose
    body is [null] or [undefined] the read of [access_token] throws and the
    answer is 500 with [success: false]. *)
Theorem X7_test_connection (env : environment) (net : network) :
  (exists code json,
     run (Routes.test_connection env) net
     = [Post (Server.iam_request env); Respond code json]
     /\ (code = 200%Z \/ code = 500%Z))
  /\ (forall c d,
        net (Server.iam_request env) = Responded c d ->
        validateStatus c = true ->
        (Routes.nullish d = false ->
         exists token json,
           get_prop d (lit "access_token") = Normal token
           /\ run (Routes.test_connection env) net
              = [Post (Server.iam_request env); Respond 200 json]
           /\ get_prop json (lit "success") = Normal (VBool true)
           /\ get_prop json (lit "message")
              = Normal (VStr (lit "Successfully obtained IAM token"))
           /\ get_prop json (lit "tokenExists") = Normal (VBool (truthy token)))
        /\ (Routes.nullish d = true ->
            exists json text,
              run (Routes.test_connection env) net
              = [Post (Server.iam_request env); Respond 500 json]
              /\ get_prop json (lit "success") = Normal (VBool false)
              /\ get_prop json (lit "error") = Normal (VStr text))).
Proof.
  rewrite test_connection_run. split.
  - destruct (net (Server.iam_request env)) as [c d|m|m|];
      [destruct (validateStatus c);
       [destruct (get_prop d (lit "access_token"))|]|..];
      eexists; eexists; (split; [reflexivity|]); auto.
  - intros c d Hn Hv. rewrite Hn, Hv. split.
    + intros Hnull.
      destruct (get_prop_total d (lit "access_token") Hnull) as [token Htok].
      rewrite Htok. exists token. eexists.
      split; [reflexivity|]. split; [reflexivity|].
      split; [reflexivity|]. split; reflexivity.
    + intros Hnull. destruct d; try discriminate Hnull;
        eexists; eexists; (split; [reflexivity|]); split; reflexivity.
Qed.

(** A 2xx answer without a token: success with [tokenExists: false]. *)
Lemma X7_witness :
  exists token json,
    get_prop (VObj []) (lit "access_token") = Normal token
    /\ run (Routes.test_connection Scenario.no_api_key)
         (Scenario.answering (Responded 200 (VObj [])) (Responded 200 VNull))
       = [Post (Server.iam_request Scenario.no_api_key); Respond 200 json]
    /\ get_prop json (lit "success") = Normal (VBool true)
    /\ get_prop json (lit "message")
       = Normal (VStr (lit "Successfully obtained IAM token"))
    /\ get_prop json (lit "tokenExists") = Normal (VBool (truthy token)).
Proof.
  exact (proj1 (proj2 (X7_test_connection Scenario.no_api_key
                         (Scenario.answering (Responded 200 (VObj []))
                            (Responded 200 VNull)))
                  200%Z (VObj []) eq_refl eq_refl) eq_refl).
Defined.



(** X9: the health check makes no outbound call and tells of the two
    secrets only whether they are set: two configurations with the same
    secrets set give the same answer.  Its two flags are both [true] exactly
    when the chat route, given a truthy message, gets past its
    configuration check. *)
Theorem X9_health_reports_configuration (env : environment) (req : http_request)
    (net : network) (msg : value) (timestamp nodeVersion : jsstr) :
  get_prop (req_body req) (lit "message") = Normal msg ->
  truthy msg = true ->
  exists json flags,
    run (Routes.health env timestamp nodeVersion) net = [Respond 200 json]
    /\ get_prop json (lit "environment") = Normal flags
    /\ get_prop flags (lit "hasApiKey")
       = Normal (VBool (truthy (env_value (env_IBM_API_KEY env))))
    /\ get_prop flags (lit "hasProjectId")
       = Normal (VBool (truthy (env_value (env_PROJECT_ID env))))
    /\ (truthy (env_value (env_IBM_API_KEY env))
        && truthy (env_value (env_PROJECT_ID env)) = true
        <-> exists rest,
              run (Server.api_chat env req) net
              = Post (Server.iam_request env) :: rest)
    /\ (forall env',
          truthy (env_value (env_IBM_API_KEY env'))
          = truthy (env_value (env_IBM_API_KEY env)) ->
          truthy (env_value (env_PROJECT_ID env'))
          = truthy (env_value (env_PROJECT_ID env)) ->
          run (Routes.health env' timestamp nodeVersion) net = [Respond 200 json]).
Proof.
  intros Hm Ht. eexists. eexists.
  split; [reflexivity|]. split; [reflexivity|].
  split; [reflexivity|]. split; [reflexivity|]. split.
  - split.
    + intros Hb. apply andb_true_iff in Hb. destruct Hb as [Hk Hp].
      exact (server_starts_token_exchange env req net msg Hm Ht Hk Hp).
    + intros [rest Hrun].
      destruct (truthy (env_value (env_IBM_API_KEY env))) eqn:Hk.
      * destruct (truthy (env_value (env_PROJECT_ID env))) eqn:Hp; [reflexivity|].
        rewrite (server_project_id_missing env req net msg Hm Ht Hk Hp) in Hrun.
        discriminate Hrun.
      * rewrite (server_api_key_missing env req net msg Hm Ht Hk) in Hrun.
        discriminate Hrun.
  - intros env' Hk Hp. unfold Routes.health, run, res_json, emit.
    cbn [snd app]. rewrite Hk, Hp. reflexivity.
Qed.

Lemma X9_witness :
  exists json flags,
    run (Routes.health Scenario.no_api_key (lit "2025-01-01T00:00:00.000Z")
           (lit "v20.0.0")) (Scenario.healthy VNull)
    = [Respond 200 json]
    /\ get_prop json (lit "environment") = Normal flags
    /\ get_prop flags (lit "hasApiKey") = Normal (VBool false).
Proof.
  destruct (X9_health_reports_configuration Scenario.no_api_key
              (Scenario.post Scenario.hi) (Scenario.healthy VNull) Scenario.hi
              (lit "2025-01-01T00:00:00.000Z") (lit "v20.0.0") eq_refl eq_refl)
    as (json & flags & H1 & H2 & H3 & _).
  exists json, flags. split; [exact H1|]. split; [exact H2 | exact H3].
Defined.

(** *** More on the primary route and the serverless functions *)

Lemma contains_cons marker c s :
  Spec.contains marker (c :: s) = false ->
  strip_prefix marker (c :: s) = None /\ Spec.contains marker s = false.
Proof.
  cbn [Spec.contains]. destruct (strip_prefix marker (c :: s)); [discriminate|].
  intros H. split; [reflexivity | exact H].
Qed.

(** The dots never cross a line terminator: without a marker before it,
    nothing matches. *)
Lemma lazy_dots_stop_at_line_end marker X c R :
  Spec.contains marker X = false ->
  is_line_terminator c = true ->
  ~ In c marker ->
  lazy_dots_then marker (X ++ c :: R) = None.
Proof.
  intros Hc Hterm Hin. induction X as [|x X IH].
  - cbn [app lazy_dots_then].
    destruct marker as [|m marker]; [discriminate Hc|].
    cbn [strip_prefix]. destruct (N.eqb_spec m c) as [->|_].
    + exfalso. apply Hin. left. reflexivity.
    + rewrite Hterm. reflexivity.
  - destruct (contains_cons marker x X Hc) as [Hs Hc'].
    pose proof (strip_prefix_no_straddle c [] marker (x :: X) R Hin Hs) as Hmiss.
    change ((x :: X) ++ [c] ++ R) with (x :: (X ++ c :: R)) in Hmiss.
    cbn [app lazy_dots_then]. rewrite Hmiss.
    destruct (is_line_terminator x); [reflexivity | exact (IH Hc')].
Qed.

(** X10: the clean-up of the primary route never removes the prompt that
    the route itself sends: the prompt puts two line feeds between the
    message and [Assistant:], and the dot of the expression stops at the
    first of them.  An upstream that echoes the prompt gets the whole echo
    back as content. *)
Theorem X10_own_prompt_is_never_stripped (m Y : jsstr) :
  Spec.contains (lit "Assistant:") m = false ->
  replace_prompt (lit "Human: " ++ m ++ [LF; LF] ++ lit "Assistant:" ++ Y)
  = lit "Human: " ++ m ++ [LF; LF] ++ lit "Assistant:" ++ Y
  /\ Server.responseText
       (VObj [(lit "results",
               VArr [VObj [(lit "generated_text",
                            VStr (lit "Human: " ++ m ++ [LF; LF]
                                  ++ lit "Assistant:" ++ Y))]])])
     = Normal (trim (lit "Human: " ++ m ++ [LF; LF] ++ lit "Assistant:" ++ Y)).
Proof.
  intros Hc.
  assert (Hrep : replace_prompt
                   (lit "Human: " ++ m ++ [LF; LF] ++ lit "Assistant:" ++ Y)
                 = lit "Human: " ++ m ++ [LF; LF] ++ lit "Assistant:" ++ Y).
  { unfold replace_prompt.
    change (lit "Human: " ++ m ++ [LF; LF] ++ lit "Assistant:" ++ Y)
      with (lit "Human:" ++ (32%N :: m) ++ LF :: (LF :: lit "Assistant:" ++ Y)).
    rewrite strip_prefix_app.
    assert (Hnone : lazy_dots_then (lit "Assistant:")
                      ((32%N :: m) ++ LF :: (LF :: lit "Assistant:" ++ Y)) = None).
    { apply lazy_dots_stop_at_line_end.
      - cbn [Spec.contains].
        change (lit "Assistant:") with (65%N :: lit "ssistant:").
        cbn [strip_prefix]. change (65 =? 32)%N with false. cbv iota.
        change (65%N :: lit "ssistant:") with (lit "Assistant:"). exact Hc.
      - reflexivity.
      - vm_compute. intuition discriminate. }
    unfold jsstr, jschar in *. rewrite Hnone. reflexivity. }
  split; [exact Hrep|].
  rewrite (responseText_generated
             (VObj [(lit "results",
                     VArr [VObj [(lit "generated_text",
                                  VStr (lit "Human: " ++ m ++ [LF; LF]
                                        ++ lit "Assistant:" ++ Y))]])])
             (VObj [(lit "generated_text",
                     VStr (lit "Human: " ++ m ++ [LF; LF]
                           ++ lit "Assistant:" ++ Y))])
             [] (lit "Human: " ++ m ++ [LF; LF] ++ lit "Assistant:" ++ Y)
             eq_refl eq_refl).
  rewrite Hrep. reflexivity.
Qed.

Lemma X10_witness :
  replace_prompt (lit "Human: " ++ lit "hi" ++ [LF; LF] ++ lit "Assistant:"
                  ++ lit " hello")
  = lit "Human: " ++ lit "hi" ++ [LF; LF] ++ lit "Assistant:" ++ lit " hello".
Proof.
  exact (proj1 (X10_own_prompt_is_never_stripped (lit "hi") (lit " hello") eq_refl)).
Defined.

(** X11: a serverless function answers at most once and only with 200, 400,
    405 or 500: the status of an upstream service is never handed on.  It
    sends no answer at all exactly when a call that it made stays silent,
    since none of its calls carries a timeout.  This holds for every
    deployment address, the two of the two files included. *)
Theorem X11_serverless_status_codes (url : jsstr) (env : environment)
    (req : http_request) (net : network) :
  (responses (run (Serverless.handler_with url env req) net) = []
   \/ exists code json,
        responses (run (Serverless.handler_with url env req) net) = [(code, json)]
        /\ In code [200%Z; 400%Z; 405%Z; 500%Z])
  /\ (responses (run (Serverless.handler_with url env req) net) = []
      <-> exists r,
            In r (posts (run (Serverless.handler_with url env req) net))
            /\ net r = Silent /\ timeout (config r) = None)
  /\ ApiChat.handler = Serverless.handler_with ApiChat.SCORING_URL
  /\ ApiChatCjs.handler = Serverless.handler_with ApiChatCjs.SCORING_URL.
Proof.
  split; [|split; [|split; reflexivity]].
  - run_handler. all_cases;
      first [ left; reflexivity
            | right; eexists; eexists; (split; [reflexivity|]); cbn; auto ].
  - destruct (serverless_responds_unless_silent url env req net)
      as [[Hnone Hsilent]|[Hone Hloud]].
    + split; [intros _; exact Hsilent | intros _; exact Hnone].
    + split.
      * intros Hnone. rewrite Hnone in Hone. discriminate Hone.
      * intros (r & Hin & Hs & _). exfalso. exact (Hloud r Hin Hs).
Qed.

(** X12: in the primary route the outbound calls of one invocation are, in
    the order of the trace, none, or the call to the identity service alone,
    or that call followed by one inference call.  The inference call is made
    only when the identity service gave a 2xx answer in this very
    invocation; its [Authorization] header is [Bearer] and the token of that
    answer, and its [input] is the message of this request between
    [Human: ] and the prompt of the assistant. *)
Theorem X12_token_before_inference (env : environment) (req : http_request)
    (net : network) :
  url (Server.iam_request env) = lit "https://iam.cloud.ibm.com/identity/token"
  /\ (posts (run (Server.api_chat env req) net) = []
      \/ (exists ending,
            run (Server.api_chat env req) net
            = Post (Server.iam_request env) :: ending
            /\ posts ending = [])
      \/ (exists msg token c d r ending,
            run (Server.api_chat env req) net
            = Post (Server.iam_request env) :: Post r :: ending
            /\ posts ending = []
            /\ get_prop (req_body req) (lit "message") = Normal msg
            /\ net (Server.iam_request env) = Responded c d
            /\ validateStatus c = true
            /\ get_prop d (lit "access_token") = Normal token
            /\ url r
               = lit "https://us-south.ml.cloud.ibm.com/ml/v1/text/generation?version=2023-05-29"
            /\ headers (config r)
               = [(lit "Authorization", [TLit (lit "Bearer "); TSub token]);
                  (lit "Content-Type", [TLit (lit "application/json")]);
                  (lit "Accept", [TLit (lit "application/json")])]
            /\ exists rest,
                 body r
                 = PObj ((lit "input",
                          PStr [TLit (lit "Human: "); TSub msg;
                                TLit ([LF; LF] ++ lit "Assistant: I'm LearnMate, your AI learning coach. I'm here to help you with educational planning, finding resources, and answering questions about learning and development.")])
                         :: rest))).
Proof.
  split; [reflexivity|].
  run_handler. rewrite server_iam_template. fold (Server.iam_request env).
  all_cases.
  all: repeat match goal with
         | H : template_literal _ = Normal _ |- _ =>
             apply template_literal_normal in H; subst
         end.
  all: first
    [ left; reflexivity
    | right; left; eexists; split; reflexivity
    | right; right; do 6 eexists;
      repeat (split; [first [reflexivity | eassumption]|]);
      eexists; reflexivity ].
Qed.

(** X13: the same for the serverless functions, whose inference call
    carries the message itself as [messages[0].content]; a trace may end
    after either call, without an answer, when the service called stays
    silent. *)
Theorem X13_serverless_token_before_inference (url : jsstr) (env : environment)
    (req : http_request) (net : network) :
  Effects.url (Serverless.iam_request env)
  = lit "https://iam.cloud.ibm.com/identity/token"
  /\ (posts (run (Serverless.handler_with url env req) net) = []
      \/ (exists ending,
            run (Serverless.handler_with url env req) net
            = Post (Serverless.iam_request env) :: ending
            /\ posts ending = [])
      \/ (exists msg token c d r ending,
            run (Serverless.handler_with url env req) net
            = Post (Serverless.iam_request env) :: Post r :: ending
            /\ posts ending = []
            /\ get_prop (req_body req) (lit "message") = Normal msg
            /\ net (Serverless.iam_request env) = Responded c d
            /\ validateStatus c = true
            /\ get_prop d (lit "access_token") = Normal token
            /\ Effects.url r = url
            /\ headers (config r)
               = [(lit "Authorization", [TLit (lit "Bearer "); TSub token]);
                  (lit "Content-Type", [TLit (lit "application/json")])]
            /\ body r
               = PObj [(lit "project_id", PVal (env_value (env_PROJECT_ID env)));
                       (lit "messages",
                        PArr [PObj [(lit "content", PVal msg);
                                    (lit "role", PVal (VStr (lit "user")))]])])).
Proof.
  split; [reflexivity|].
  run_handler. rewrite serverless_iam_template. fold (Serverless.iam_request env).
  all_cases.
  all: repeat match goal with
         | H : template_literal _ = Normal _ |- _ =>
             apply template_literal_normal in H; subst
         end.
  all: first
    [ left; reflexivity
    | right; left; eexists; split; reflexivity
    | right; right; do 6 eexists;
      repeat (split; [first [reflexivity | eassumption]|]);
      reflexivity ].
Qed.

(** X21: every 200 response of the primary route is the envelope, and the
    value at [choices[0].message.content] is a string that is not empty:
    the text the normalizer read from an upstream 2xx body, and the
    fallback text of the route where that text is empty. *)
Theorem X21_ok_content_is_nonempty (env : environment) (req : http_request)
    (net : network) (code : Z) (json : value) :
  In (code, json) (responses (run (Server.api_chat env req) net)) ->
  code = 200%Z ->
  exists text s,
    json = VObj [(lit "choices",
                  VArr [VObj [(lit "index", VNum (num_of_Z 0));
                              (lit "message",
                               VObj [(lit "content", VStr s);
                                     (lit "role", VStr (lit "assistant"))])]])]
    /\ s <> []
    /\ (exists msg token c aiData,
          net (Server.generation_request env msg token) = Responded c aiData
          /\ validateStatus c = true
          /\ Server.responseText aiData = Normal text)
    /\ (text = [] ->
        s = lit "I'm sorry, I couldn't generate a response. Please try again.")
    /\ (text <> [] -> s = text).
Proof.
  intros Hin ->. revert Hin. run_handler.
  all_cases.
  all: intros [Hin|[]]; try discriminate Hin.
  all: try (injection Hin as Hc Hj; cbn in Hc; subst;
            match goal with
            | H : validateStatus 200 = false |- _ => discriminate H
            end).
  all: try match goal with
       | H : get_prop _ _ = Throw ?e, H' : response ?e = Some _ |- _ =>
           destruct (get_prop_throws_plain _ _ _ H); congruence
       | H : template_literal _ = Throw ?e, H' : response ?e = Some _ |- _ =>
           destruct (template_literal_throws_plain _ _ H); congruence
       | H : Server.responseText _ = Throw ?e, H' : response ?e = Some _ |- _ =>
           destruct (responseText_throws_plain _ _ H); congruence
       end.
  injection Hin as <-.
  repeat match goal with
         | H : template_literal _ = Normal _ |- _ =>
             apply template_literal_normal in H; subst
         end.
  match goal with
  | Hr : Server.responseText ?d = Normal ?text,
    Hv : validateStatus ?c = true,
    Hn : net _ = Responded ?c ?d,
    Hg : get_prop _ (lit "access_token") = Normal ?token,
    Hm : get_prop (req_body req) _ = Normal ?msg |- _ =>
      exists text, match text with [] => Server.fallback | _ :: _ => text end;
      split; [unfold Server.formattedResponse; rewrite content_string; reflexivity|];
      split; [apply content_nonempty|];
      split; [exists msg, token, c, d; repeat split; assumption|];
      split; [intros ->; reflexivity | destruct text; [contradiction | reflexivity]]
  end.
Qed.

Lemma X21_witness :
  exists text s,
    VObj [(lit "choices",
           VArr [VObj [(lit "index", VNum (num_of_Z 0));
                       (lit "message",
                        VObj [(lit "content", VStr (lit "hello"));
                              (lit "role", VStr (lit "assistant"))])]])]
    = VObj [(lit "choices",
             VArr [VObj [(lit "index", VNum (num_of_Z 0));
                         (lit "message",
                          VObj [(lit "content", VStr s);
                                (lit "role", VStr (lit "assistant"))])]])]
    /\ s <> []
    /\ (exists msg token c aiData,
          Scenario.healthy (Scenario.generated (lit "hello"))
            (Server.generation_request Scenario.configured msg token)
          = Responded c aiData
          /\ validateStatus c = true
          /\ Server.responseText aiData = Normal text)
    /\ (text = [] ->
        s = lit "I'm sorry, I couldn't generate a response. Please try again.")
    /\ (text <> [] -> s = text).
Proof.
  refine (X21_ok_content_is_nonempty Scenario.configured
            (Scenario.post Scenario.hi)
            (Scenario.healthy (Scenario.generated (lit "hello")))
            200%Z
            (VObj [(lit "choices",
                    VArr [VObj [(lit "index", VNum (num_of_Z 0));
                                (lit "message",
                                 VObj [(lit "content", VStr (lit "hello"));
                                       (lit "role", VStr (lit "assistant"))])]])])
            _ eq_refl).
  vm_compute. left. reflexivity.
Defined.

(** ** Beyond the claims: the page script *)

(** *** [trim] *)









(** The one request of [sendMessage]. *)
Lemma page_fetch_trimmed input backend json :
  In (Frontend.Fetch json) (Frontend.sendMessage input backend) ->
  json = Frontend.chat_body (trim input) /\ trim input <> [].
Proof.
  intros Hin. unfold Frontend.sendMessage in Hin.
  destruct (trim input) as [|c r] eqn:E; [destruct Hin|].
  destruct (Frontend.shown _) as [text type].
  cbn [In] in Hin.
  destruct Hin as [Hin|[Hin|[Hin|[]]]]; try discriminate Hin.
  injection Hin as <-. split; [reflexivity | discriminate].
Qed.



(** *** The page and the primary route *)


(** A truthy message is never answered with the 400 of the validation. *)
Lemma server_truthy_not_rejected env req net msg :
  get_prop (req_body req) (lit "message") = Normal msg ->
  truthy msg = true ->
  ~ In (Respond 400 Server.empty_message) (run (Server.api_chat env req) net).
Proof.
  intros Hm Ht. run_handler. rewrite Hm, Ht. cbn [negb].
  all_cases.
  all: cbn [In]; intros Hin;
    repeat match goal with
           | H : _ \/ _ |- _ => destruct H as [H|H]
           | H : False |- _ => destruct H
           end;
    try discriminate Hin.
  all: injection Hin as _ Hj; cbv in Hj; discriminate Hj.
Qed.


(** X15: whatever the user types, the request that the page sends is never
    answered by the primary route with [400 Message cannot be empty.]: the
    page never sends what the route's validation rejects. *)
Theorem X15_page_never_rejected (input : jsstr) (env : environment)
    (net : network) (json : value) :
  In (Frontend.Fetch json)
     (Frontend.sendMessage input (Frontend.express env net)) ->
  ~ In (Respond 400 Server.empty_message)
       (run (Server.api_chat env {| method := lit "POST"; req_body := json |}) net).
Proof.
  intros Hin.
  destruct (page_fetch_trimmed input (Frontend.express env net) json Hin)
    as [-> Hne].
  apply (server_truthy_not_rejected env
           {| method := lit "POST";
              req_body := Frontend.chat_body (trim input) |}
           net (VStr (trim input)) eq_refl).
  apply nonempty_truthy. exact Hne.
Qed.

Lemma X15_witness :
  ~ In (Respond 400 Server.empty_message)
       (run (Server.api_chat Scenario.configured
               {| method := lit "POST";
                  req_body := Frontend.chat_body (lit "hi") |})
          (Scenario.healthy VNull)).
Proof.
  refine (X15_page_never_rejected (lit " hi ") Scenario.configured
            (Scenario.healthy VNull) (Frontend.chat_body (lit "hi")) _).
  vm_compute. right. left. reflexivity.
Defined.




(** *** How the page reads a response *)

Lemma has_choice_first data first rest msg :
  get_prop data (lit "choices") = Normal (VArr (first :: rest)) ->
  get_prop first (lit "message") = Normal msg ->
  Frontend.has_choice data = Normal (truthy msg).
Proof.
  intros Hc Hm. unfold Frontend.has_choice. rewrite Hc.
  cbn [and_then truthy get_length List.length]. rewrite length_positive.
  cbn [and_then get_index nth]. rewrite Hm. reflexivity.
Qed.

(** X17: the page reads a response in a fixed order.  A first choice with
    a truthy [message] decides: the reply is its [content], whatever else
    the body holds.  Without such a choice, a truthy
    [results[0].generated_text] is the reply, as it is: a string is shown as
    a bot message, with the markup of [formatMessage]; a reply of any other
    type is handed to [addMessage] all the same, which throws on
    [text.replace], so that no message appears. *)
Theorem X17_page_reads_choices_first (data first : value) (rest : list value) :
  (forall msg,
     get_prop data (lit "choices") = Normal (VArr (first :: rest)) ->
     get_prop first (lit "message") = Normal msg ->
     truthy msg = true ->
     Frontend.aiReply data = get_prop msg (lit "content"))
  /\ (forall g,
        Frontend.has_choice data = Normal false ->
        get_prop data (lit "results") = Normal (VArr (first :: rest)) ->
        truthy first = true ->
        get_prop first (lit "generated_text") = Normal g ->
        truthy g = true ->
        Frontend.aiReply data = Normal g
        /\ Frontend.shown (Frontend.Answered 200 (Normal data)) = (g, Frontend.bot)
        /\ (forall s,
              g = VStr s ->
              Frontend.addMessage g Frontend.bot
              = Normal (Frontend.formatMessage s, Frontend.bot))
        /\ ((forall s, g <> VStr s) ->
            exists e, Frontend.addMessage g Frontend.bot = Throw e)).
Proof.
  split.
  - intros msg Hc Hm Ht. unfold Frontend.aiReply.
    rewrite (has_choice_first data first rest msg Hc Hm), Ht.
    cbn [and_then]. rewrite Hc. cbn [and_then get_index nth]. rewrite Hm.
    reflexivity.
  - intros g Hno Hr Hf Hg Ht.
    assert (Hreply : Frontend.aiReply data = Normal g).
    { unfold Frontend.aiReply, Frontend.has_result. rewrite Hno. cbn [and_then].
      rewrite Hr. cbn [and_then truthy get_index nth]. rewrite Hf.
      rewrite Hg. cbn [and_then]. rewrite Ht. reflexivity. }
    split; [exact Hreply|]. split.
    + unfold Frontend.shown, Frontend.reply_message.
      change (Frontend.ok 200) with true. cbn [negb and_then].
      rewrite Hreply. cbn [and_then]. rewrite Ht. reflexivity.
    + split.
      * intros s ->. reflexivity.
      * intros Hns. destruct g; try (eexists; reflexivity).
        exfalso. exact (Hns _ eq_refl).
Qed.

(** A body with both shapes: the choice wins. *)
Lemma X17_witness :
  Frontend.aiReply
    (VObj [(lit "results", VArr [VObj [(lit "generated_text", VStr (lit "r"))]]);
           (lit "choices",
            VArr [VObj [(lit "message", VObj [(lit "content", VStr (lit "c"))])]])])
  = Normal (VStr (lit "c")).
Proof.
  exact (proj1 (X17_page_reads_choices_first
                  (VObj [(lit "results",
                          VArr [VObj [(lit "generated_text", VStr (lit "r"))]]);
                         (lit "choices",
                          VArr [VObj [(lit "message",
                                       VObj [(lit "content", VStr (lit "c"))])]])])
                  (VObj [(lit "message", VObj [(lit "content", VStr (lit "c"))])])
                  [])
           (VObj [(lit "content", VStr (lit "c"))]) eq_refl eq_refl eq_refl).
Defined.



(** *** [formatMessage] *)

Lemma replace_all_never m s :
  (forall b pre t, s = pre ++ t -> m b t = None) ->
  forall bol, Frontend.replace_all m bol 0 s = s.
Proof.
  induction s as [|c s IH]; intros H bol; [reflexivity|].
  cbn [Frontend.replace_all]. rewrite (H bol [] (c :: s) eq_refl).
  f_equal. apply IH. intros b pre t E. apply (H b (c :: pre) t).
  rewrite E. reflexivity.
Qed.



Lemma contains_suffix marker pre t :
  Spec.contains marker (pre ++ t) = false -> Spec.contains marker t = false.
Proof.
  induction pre as [|c pre IH]; intros H; [exact H|].
  apply IH. exact (proj2 (contains_cons marker c (pre ++ t) H)).
Qed.

Lemma contains_none marker t :
  Spec.contains marker t = false -> strip_prefix marker t = None.
Proof.
  destruct t as [|c t]; cbn [Spec.contains];
    destruct (strip_prefix marker _); intros H; [discriminate|reflexivity|discriminate|reflexivity].
Qed.

Lemma strip_prefix_longer p q t :
  strip_prefix p t = None -> strip_prefix (p ++ q) t = None.
Proof.
  revert t; induction p as [|x p IH]; intros t H; [discriminate H|].
  cbn [app strip_prefix] in *. destruct t as [|y t]; [reflexivity|].
  destruct (N.eqb x y); [exact (IH t H) | reflexivity].
Qed.

Lemma url_match_none s :
  Spec.contains (lit "http") s = false ->
  forall b pre t, s = pre ++ t -> Frontend.url_match b t = None.
Proof.
  intros H b pre t ->.
  pose proof (contains_none _ _ (contains_suffix _ pre t H)) as Hs.
  unfold Frontend.url_match, Frontend.url_length, Frontend.scheme_then_run.
  change (lit "https://") with (lit "http" ++ lit "s://").
  change (lit "http://") with (lit "http" ++ lit "://").
  rewrite !(strip_prefix_longer _ _ _ Hs). reflexivity.
Qed.

Lemma item_match_none s :
  existsb is_digit s = false ->
  forall b pre t, s = pre ++ t -> Frontend.item_match b t = None.
Proof.
  intros H b pre t ->. rewrite existsb_app in H.
  apply orb_false_iff in H. destruct H as [_ H].
  unfold Frontend.item_match. destruct t as [|c t]; [reflexivity|].
  cbn [existsb] in H. apply orb_false_iff in H. destruct H as [Hc _].
  cbn [Frontend.run_length]. rewrite Hc. reflexivity.
Qed.

Lemma in_skipn (x : jschar) k t : In x (skipn k t) -> In x t.
Proof.
  intros H. rewrite <- (firstn_skipn k t). apply in_or_app. right. exact H.
Qed.

Lemma bullet_match_none s :
  existsb Markup.is_asterisk s = false ->
  forall b pre t, s = pre ++ t -> Frontend.bullet_match b t = None.
Proof.
  intros H b pre t ->. unfold Frontend.bullet_match.
  destruct b; [|reflexivity].
  destruct (skipn _ t) as [|star [|w r]] eqn:E; try reflexivity.
  destruct (N.eqb_spec star 42) as [->|_]; [|reflexivity].
  exfalso.
  assert (Hin : In 42%N (pre ++ t)).
  { apply in_or_app. right. apply (in_skipn _ (Frontend.run_length is_space t)).
    rewrite E. left. reflexivity. }
  assert (Hex : existsb Markup.is_asterisk (pre ++ t) = true).
  { apply existsb_exists. exists 42%N. split; [exact Hin | reflexivity]. }
  rewrite H in Hex. discriminate Hex.
Qed.

(** X19: [formatMessage] leaves a text without [http], without digits and
    without asterisks exactly as it is; in particular it escapes nothing,
    and [addMessage] hands the text to [innerHTML] with its markup. *)
Theorem X19_plain_text_is_not_escaped (text : jsstr) :
  Spec.contains (lit "http") text = false ->
  existsb is_digit text = false ->
  existsb Markup.is_asterisk text = false ->
  Frontend.formatMessage text = text
  /\ forall type, Frontend.addMessage (VStr text) type = Normal (text, type).
Proof.
  intros Hu Hd Ha.
  assert (H : Frontend.formatMessage text = text).
  { unfold Frontend.formatMessage, Frontend.link_urls, Frontend.break_items,
      Frontend.break_bullets.
    rewrite (replace_all_never _ text (url_match_none text Hu)).
    rewrite (replace_all_never _ text (item_match_none text Hd)).
    apply (replace_all_never _ text (bullet_match_none text Ha)). }
  split; [exact H|]. intros type. cbn [Frontend.addMessage]. rewrite H.
  reflexivity.
Qed.

Lemma X19_witness :
  Frontend.formatMessage (lit "<img src=x onerror=alert(document.cookie)>")
  = lit "<img src=x onerror=alert(document.cookie)>".
Proof.
  exact (proj1 (X19_plain_text_is_not_escaped
                  (lit "<img src=x onerror=alert(document.cookie)>")
                  eq_refl eq_refl eq_refl)).
Defined.













